(** * ManufacturingChatbot (ai_chatbot.py): keyword classification and
    templated responses

    A shallow embedding of the class [ManufacturingChatbot]: its topic table,
    the first-match keyword scan of [get_response], the per-topic renderer
    [_generate_response], the fallback path and the conversation log.

    Python strings are sequences of Unicode code points, so [str] is a list
    of code points; string literals of the source are written as UTF-8 text
    and decoded by [u].  The built-ins [str.lower] and [str.strip], the
    module [random] and the wall clock are services of the Python runtime:
    the development is parametric in them ([StrOps], [World]) and gives one
    concrete instance of each for running the model on examples. *)

From Stdlib Require Import ZArith NArith QArith String Ascii Lia.
From Stdlib Require Import SpecFloat.
From stdpp Require Import base option list gmap.

Local Open Scope N_scope.

(** ** Strings *)

Definition char : Set := N.
Definition str : Set := list N.

(** UTF-8 decoding of a source literal: [need] continuation bytes are still
    expected for the code point accumulated in [acc]. *)
Fixpoint utf8_go (need : nat) (acc : N) (bs : list N) : str :=
  match bs with
  | [] => []
  | b :: bs' =>
      match need with
      | S k =>
          let acc' := acc * 64 + b mod 64 in
          match k with
          | O => acc' :: utf8_go 0 0 bs'
          | S _ => utf8_go k acc' bs'
          end
      | O =>
          if b <? 128 then b :: utf8_go 0 0 bs'
          else if b <? 224 then utf8_go 1 (b mod 32) bs'
          else if b <? 240 then utf8_go 2 (b mod 16) bs'
          else utf8_go 3 (b mod 8) bs'
      end
  end.

Definition u (s : string) : str :=
  utf8_go 0 0 (List.map N_of_ascii (list_ascii_of_string s)).
Arguments u s%_string.

(** ['\n'.join(lines)] *)
Fixpoint join (sep : str) (parts : list str) : str :=
  match parts with
  | [] => []
  | [p] => p
  | p :: rest => p ++ sep ++ join sep rest
  end.

Definition nl : str := [10].
(** The double quote, which the help text uses around its sample questions. *)
Definition dq : str := [34].

(** [s.startswith(p)] *)
Fixpoint starts_with (p s : str) : bool :=
  match p, s with
  | [], _ => true
  | _ :: _, [] => false
  | a :: p', b :: s' => (a =? b) && starts_with p' s'
  end.

(** [p in s] on strings: [p] occurs as a contiguous run of [s]. *)
Fixpoint contains (s p : str) : bool :=
  starts_with p s ||
  match s with
  | [] => false
  | _ :: s' => contains s' p
  end.

(** [str.lower] and [str.strip] of the runtime. *)
Class StrOps := {
  str_lower : str -> str;
  str_strip : str -> str
}.

(** ** The topic table *)

Record topic_info := TopicInfo {
  keywords : list str;
  response : str
}.

(** A dict literal iterates in the order its keys are written, so the table
    is an association list in declaration order. *)
Definition kb := list (str * topic_info).

Definition kw_oee : list str :=
  [u "oee"; u "overall equipment effectiveness"; u "equipment effectiveness"].
Definition kw_maintenance : list str :=
  [u "maintenance"; u "repair"; u "fix"; u "broken"; u "failure"; u "predict"].
Definition kw_energy : list str :=
  [u "energy"; u "power"; u "consumption"; u "electricity"; u "kwh"; u "carbon"].
Definition kw_quality : list str :=
  [u "quality"; u "defect"; u "defects"; u "reject"; u "scrap"; u "yield"; u "fpy"].
Definition kw_production : list str :=
  [u "production"; u "output"; u "units"; u "throughput"; u "capacity"; u "rate"].
Definition kw_alert : list str :=
  [u "alert"; u "alarm"; u "warning"; u "critical"; u "issue"; u "problem"].
Definition kw_anomaly : list str :=
  [u "anomaly"; u "anomalies"; u "unusual"; u "abnormal"; u "outlier"].
Definition kw_help : list str :=
  [u "help"; u "what can you do"; u "commands"; u "how to"; u "guide"].
Definition kw_summary : list str :=
  [u "summary"; u "overview"; u "status"; u "dashboard"; u "report"; u "today"].
Definition kw_optimize : list str :=
  [u "optimize"; u "improve"; u "better"; u "increase"; u "reduce";
   u "efficiency"; u "tips"].

(** The response templates, line by line as the triple-quoted literals of
    [__init__] have them. *)
Definition response_oee : str :=
  join nl
   [u "**Overall Equipment Effectiveness (OEE)** is currently at {oee:.1f}%.";
    u "";
    u "OEE is calculated as: **Availability × Performance × Quality**";
    u "";
    u "📊 **Current Breakdown:**";
    u "- Availability: {availability:.1f}%";
    u "- Performance: {performance:.1f}%";
    u "- Quality: {quality:.1f}%";
    u "";
    u "💡 **Recommendation:** {recommendation}"].

Definition response_maintenance : str :=
  join nl
   [u "🔧 **Predictive Maintenance Analysis**";
    u "";
    u "Based on AI analysis of sensor data:";
    u "";
    u "{equipment_status}";
    u "";
    u "⏰ **Upcoming Maintenance:**";
    u "{maintenance_schedule}";
    u "";
    u "💰 **Projected Cost Savings:** ${savings:,} this month through predictive maintenance."].

Definition response_energy : str :=
  join nl
   [u "⚡ **Energy Analytics Summary**";
    u "";
    u "📊 **Today's Consumption:** {today_kwh:,.0f} kWh";
    u "📈 **Peak Demand:** {peak_kw:,.0f} kW";
    u "💵 **Cost:** ${cost:,.2f}";
    u "🌱 **Carbon Footprint:** {carbon:.0f} kg CO₂";
    u "";
    u "💡 **AI Recommendations:**";
    u "{recommendations}"].

Definition response_quality : str :=
  join nl
   [u "✅ **Quality Control Summary**";
    u "";
    u "📊 **First Pass Yield:** {fpy:.1f}%";
    u "❌ **Defect Rate:** {defect_rate:.2f}%";
    u "🔄 **Rework Rate:** {rework_rate:.2f}%";
    u "";
    u "🔍 **Top Defect Types:**";
    u "{defect_types}";
    u "";
    u "💡 **AI Insight:** {insight}"].

Definition response_production : str :=
  join nl
   [u "📈 **Production Analytics**";
    u "";
    u "📊 **Today's Output:** {units:,} units";
    u "🎯 **Target Achievement:** {target_pct:.1f}%";
    u "⏱️ **Average Cycle Time:** {cycle_time:.1f} seconds";
    u "🏭 **Throughput:** {throughput:.0f} units/hour";
    u "";
    u "📉 **Production by Line:**";
    u "{line_production}"].

Definition response_alert : str :=
  join nl
   [u "⚠️ **Active Alerts Summary**";
    u "";
    u "{alerts}";
    u "";
    u "💡 **Recommended Actions:**";
    u "{actions}"].

Definition response_anomaly : str :=
  join nl
   [u "🔍 **Anomaly Detection Results**";
    u "";
    u "📊 **Anomalies Detected (Last 24h):** {count}";
    u "📈 **Anomaly Rate:** {rate:.2f}%";
    u "🎯 **Model Confidence:** {confidence:.1f}%";
    u "";
    u "🚨 **Recent Anomalies:**";
    u "{anomaly_list}";
    u "";
    u "💡 **Root Cause Analysis:** {root_cause}"].

Definition response_help : str :=
  join nl
   [u "🤖 **TitanForge AI Assistant**";
    u "";
    u "I can help you with:";
    u "";
    u "📊 **Analytics Queries:**";
    u "- " ++ dq ++ u "What is the current OEE?" ++ dq;
    u "- " ++ dq ++ u "Show me energy consumption" ++ dq;
    u "- " ++ dq ++ u "Analyze production rates" ++ dq;
    u "- " ++ dq ++ u "What's the defect rate?" ++ dq;
    u "";
    u "🔧 **Maintenance:**";
    u "- " ++ dq ++ u "When is the next maintenance?" ++ dq;
    u "- " ++ dq ++ u "Which machines need attention?" ++ dq;
    u "- " ++ dq ++ u "Predict equipment failures" ++ dq;
    u "";
    u "⚠️ **Alerts & Issues:**";
    u "- " ++ dq ++ u "Show active alerts" ++ dq;
    u "- " ++ dq ++ u "Any anomalies detected?" ++ dq;
    u "- " ++ dq ++ u "What problems need attention?" ++ dq;
    u "";
    u "📈 **Insights:**";
    u "- " ++ dq ++ u "Give me optimization tips" ++ dq;
    u "- " ++ dq ++ u "How can we improve efficiency?" ++ dq;
    u "- " ++ dq ++ u "Summarize today's performance" ++ dq;
    u "";
    u "Just ask your question naturally!"].

Definition response_summary : str :=
  join nl
   [u "📊 **Daily Operations Summary**";
    u "";
    u "🏭 **Production:**";
    u "- Units Produced: {units:,}";
    u "- Target Achievement: {target_pct:.1f}%";
    u "- OEE: {oee:.1f}%";
    u "";
    u "⚡ **Energy:**";
    u "- Consumption: {energy:,.0f} kWh";
    u "- Cost: ${cost:,.2f}";
    u "";
    u "✅ **Quality:**";
    u "- First Pass Yield: {fpy:.1f}%";
    u "- Defect Rate: {defect_rate:.2f}%";
    u "";
    u "🔧 **Maintenance:**";
    u "- Equipment Health: {health_status}";
    u "- Next Scheduled: {next_maintenance}";
    u "";
    u "⚠️ **Alerts:** {alert_count} active";
    u "";
    u "💡 **Top Priority:** {priority}"].

Definition response_optimize : str :=
  join nl
   [u "💡 **AI Optimization Recommendations**";
    u "";
    u "Based on current data analysis:";
    u "";
    u "🎯 **High Impact Actions:**";
    u "{high_impact}";
    u "";
    u "📊 **Medium Impact Actions:**";
    u "{medium_impact}";
    u "";
    u "⏰ **Quick Wins:**";
    u "{quick_wins}";
    u "";
    u "📈 **Projected Improvements:**";
    u "- OEE: +{oee_improvement:.1f}%";
    u "- Energy Savings: {energy_savings}%";
    u "- Quality Improvement: +{quality_improvement:.1f}%"].

(** The table and the fallback pool that [__init__] stores in the instance. *)
Definition init_knowledge_base : kb :=
  [(u "oee", TopicInfo kw_oee response_oee);
   (u "maintenance", TopicInfo kw_maintenance response_maintenance);
   (u "energy", TopicInfo kw_energy response_energy);
   (u "quality", TopicInfo kw_quality response_quality);
   (u "production", TopicInfo kw_production response_production);
   (u "alert", TopicInfo kw_alert response_alert);
   (u "anomaly", TopicInfo kw_anomaly response_anomaly);
   (u "help", TopicInfo kw_help response_help);
   (u "summary", TopicInfo kw_summary response_summary);
   (u "optimize", TopicInfo kw_optimize response_optimize)].

(** Default responses for unmatched queries. *)
Definition init_default_responses : list str :=
  [u "I understand you're asking about '{query}'. Could you be more specific? Try asking about OEE, energy, quality, production, or maintenance.";
   u "I'm not sure about '{query}'. You can ask me about equipment status, energy consumption, quality metrics, or production data.";
   u "Let me help you better! Try questions like 'What's the current OEE?' or 'Show me today's production summary'."].

(** The candidate lists that [_generate_response] builds per topic. *)
Definition oee_recommendations : list str :=
  [u "Focus on reducing changeover time to improve availability.";
   u "Consider implementing TPM to boost performance.";
   u "Review quality inspection protocols on Line B.";
   u "Current performance is above target. Maintain current practices."].

Definition maintenance_equipment_list : list str :=
  [u "✅ CNC Machine #1: Healthy (92% health score)";
   u "✅ CNC Machine #2: Healthy (88% health score)";
   u "⚠️ CNC Machine #3: Attention needed (65% health score)";
   u "✅ Robot Arm A: Healthy (94% health score)";
   u "🔴 Press Machine: Maintenance due in 3 days"].

Definition maintenance_schedule : list str :=
  [u "• CNC Machine #3: Bearing replacement - Feb 5";
   u "• Press Machine: Full inspection - Feb 7";
   u "• Conveyor System: Belt check - Feb 10"].

Definition energy_recommendations : list str :=
  [u "• Shift peak operations to off-peak hours (10 PM - 6 AM)";
   u "• Install VFDs on main motors - potential 15% savings";
   u "• Fix compressed air leaks detected in Zone 3";
   u "• Optimize HVAC scheduling based on occupancy"].

Definition quality_defect_types : list str :=
  [u "1. Surface scratches: 35%";
   u "2. Dimensional errors: 28%";
   u "3. Color variations: 20%";
   u "4. Weld defects: 17%"].

Definition quality_insights : list str :=
  [u "Temperature fluctuations on Line B correlate with increased defects.";
   u "Morning shift shows 15% better quality metrics than night shift.";
   u "Consider recalibrating sensors on Station 5.";
   u "Quality trending upward - maintain current process parameters."].

Definition production_line_production : list str :=
  [u "• Line A (Assembly): 1,350 units (102% of target)";
   u "• Line B (Welding): 1,180 units (94% of target)";
   u "• Line C (Painting): 980 units (98% of target)";
   u "• Line D (Packaging): 1,420 units (108% of target)"].

Definition alert_alerts : list str :=
  [u "🔴 CRITICAL: Temperature threshold exceeded on CNC #3";
   u "🟡 WARNING: Vibration anomaly on Robot Arm A";
   u "🟡 WARNING: Energy consumption 15% above baseline";
   u "🔵 INFO: Scheduled maintenance reminder for tomorrow"].

Definition alert_actions : list str :=
  [u "1. Immediately check CNC Machine #3 cooling system";
   u "2. Schedule inspection for Robot Arm A bearings";
   u "3. Review energy usage patterns for optimization";
   u "4. Confirm maintenance crew availability for tomorrow"].

Definition anomaly_anomaly_list : list str :=
  [u "• 14:23 - Pressure spike on Hydraulic System (+45%)";
   u "• 11:47 - Temperature drift on Motor 2 (+12°C)";
   u "• 09:15 - Vibration pattern change on Conveyor"].

Definition anomaly_root_causes : list str :=
  [u "Pattern suggests bearing degradation in hydraulic pump.";
   u "Cooling system efficiency may be reduced - check filters.";
   u "Likely caused by belt tension variation."].

Definition summary_health_statuses : list str :=
  [u "Good";
   u "Excellent";
   u "Needs Attention"].

Definition summary_priorities : list str :=
  [u "Address CNC Machine #3 temperature warning";
   u "Complete scheduled maintenance on Press Machine";
   u "Review Line B quality metrics";
   u "All systems operating normally"].

Definition optimize_high_impact : list str :=
  [u "1. Implement predictive maintenance on CNC machines (-30% downtime)";
   u "2. Optimize batch scheduling to reduce changeover time";
   u "3. Install real-time quality monitoring on Line B"].

Definition optimize_medium_impact : list str :=
  [u "1. Upgrade to energy-efficient motors on conveyor system";
   u "2. Implement automated defect detection using computer vision";
   u "3. Cross-train operators for multi-line capability"].

Definition optimize_quick_wins : list str :=
  [u "1. Adjust temperature setpoints based on AI recommendations";
   u "2. Reschedule energy-intensive operations to off-peak hours";
   u "3. Update SPC control limits based on recent data"].

(** ** Exceptions *)

(** [NotModelled] marks behaviour of the runtime that this development does
    not describe (for example the shortest-repr printing of a float under an
    empty format spec); [get_response] is proved never to reach it. *)
Inductive exn :=
| KeyError (k : str)
| IndexError
| ValueError
| TypeError
| OverflowError
| NotModelled.

Inductive result (A : Type) :=
| Ok (a : A)
| Raise (e : exn).
Arguments Ok {A} a.
Arguments Raise {A} e.

Definition rbind {A B} (r : result A) (k : A -> result B) : result B :=
  match r with
  | Ok a => k a
  | Raise e => Raise e
  end.

(** ** Number formatting *)

Fixpoint uint_chars (d : Decimal.uint) : str :=
  match d with
  | Decimal.Nil => []
  | Decimal.D0 d => 48 :: uint_chars d
  | Decimal.D1 d => 49 :: uint_chars d
  | Decimal.D2 d => 50 :: uint_chars d
  | Decimal.D3 d => 51 :: uint_chars d
  | Decimal.D4 d => 52 :: uint_chars d
  | Decimal.D5 d => 53 :: uint_chars d
  | Decimal.D6 d => 54 :: uint_chars d
  | Decimal.D7 d => 55 :: uint_chars d
  | Decimal.D8 d => 56 :: uint_chars d
  | Decimal.D9 d => 57 :: uint_chars d
  end.

Definition decimal (n : N) : str := uint_chars (N.to_uint n).

(** The [,] option: a comma before every group of three digits, counted from
    the right.  [k] digits may still be written before the next comma. *)
Fixpoint group_go (k : nat) (ds : str) : str :=
  match ds with
  | [] => []
  | d :: rest =>
      match k with
      | O => 44 :: d :: group_go 2 rest
      | S k' => d :: group_go k' rest
      end
  end.

Definition group_thousands (ds : str) : str :=
  let r := (length ds mod 3)%nat in
  group_go (if Nat.eqb r 0 then 3 else r) ds.

Definition pad_zeros (w : nat) (s : str) : str :=
  replicate (w - length s) 48 ++ s.

(** [n] counts units of [10^-p]. *)
Definition fixed (grouped : bool) (p : nat) (n : N) : str :=
  let ten := 10 ^ N.of_nat p in
  let ip := decimal (n / ten) in
  (if grouped then group_thousands ip else ip) ++
  match p with
  | O => []
  | S _ => 46 :: pad_zeros p (decimal (n mod ten))
  end.

(** [num / den] rounded to the nearest integer, ties to even: the rounding of
    the runtime's float-to-decimal conversion. *)
Definition round_half_even (num den : N) : N :=
  let q := num / den in
  let r := num mod den in
  match 2 * r ?= den with
  | Lt => q
  | Gt => q + 1
  | Eq => if N.even q then q else q + 1
  end.

(** [m * 2^e] in units of [10^-p], correctly rounded. *)
Definition scaled (p : nat) (m : positive) (e : Z) : N :=
  match e with
  | Z0 => Npos m * 10 ^ N.of_nat p
  | Zpos k => Npos m * 2 ^ Npos k * 10 ^ N.of_nat p
  | Zneg k => round_half_even (Npos m * 10 ^ N.of_nat p) (2 ^ Npos k)
  end.

Definition sign_chars (s : bool) : str := if s then [45] else [].

(** [format(x, '.pf')] and [format(x, ',.pf')] of a float. *)
Definition format_float (grouped : bool) (p : nat) (x : spec_float) : str :=
  match x with
  | S754_nan => u "nan"
  | S754_infinity s => sign_chars s ++ u "inf"
  | S754_zero s => sign_chars s ++ fixed grouped p 0
  | S754_finite s m e => sign_chars s ++ fixed grouped p (scaled p m e)
  end.

(** [format(z, '')] and [format(z, ',')] of an int. *)
Definition format_int (grouped : bool) (z : Z) : str :=
  let ds := decimal (Z.abs_N z) in
  sign_chars (z <? 0)%Z ++ (if grouped then group_thousands ds else ds).

(** [float(z)]: the nearest binary64 number, ties to even; an int beyond the
    range has none. *)
Definition int_to_float (z : Z) : result spec_float :=
  match binary_normalize 53 1024 z 0 false with
  | S754_infinity _ => Raise OverflowError
  | x => Ok x
  end.

(** The format specs of the templates: an optional [,], an optional
    [.precision], an optional type [f]. *)
Record fspec := FSpec {
  grouping : bool;
  precision : option nat;
  ftype_f : bool
}.

Definition is_digit (c : char) : bool := (48 <=? c) && (c <=? 57).

Fixpoint read_digits (acc : N) (s : str) : N * str :=
  match s with
  | c :: s' => if is_digit c then read_digits (10 * acc + (c - 48)) s' else (acc, s)
  | [] => (acc, [])
  end.

Definition parse_type (g : bool) (p : option nat) (s : str) : result fspec :=
  match s with
  | [] => Ok (FSpec g p false)
  | [c] => if c =? 102 then Ok (FSpec g p true) else Raise NotModelled
  | _ => Raise NotModelled
  end.

Definition parse_precision (g : bool) (s : str) : result fspec :=
  match s with
  | c :: s' =>
      if c =? 46 then
        match s' with
        | d :: _ =>
            if is_digit d then
              let '(p, rest) := read_digits 0 s' in
              parse_type g (Some (N.to_nat p)) rest
            else Raise ValueError
        | [] => Raise ValueError
        end
      else parse_type g None s
  | [] => parse_type g None s
  end.

Definition parse_spec (s : str) : result fspec :=
  match s with
  | c :: s' => if c =? 44 then parse_precision true s' else parse_precision false s
  | [] => parse_precision false s
  end.

Definition default_precision (p : option nat) : nat :=
  match p with
  | Some n => n
  | None => 6
  end.

(** ** Values *)

(** The objects a context mapping or a keyword argument may hold.  Floats are
    binary floating-point numbers [(-1)^s * m * 2^e], kept exactly.
    [PyObject fmt] is any other object (the host's context also holds dicts
    and lists; a caller may pass a [Decimal], a [complex], a [Fraction] or a
    numpy scalar): [format] hands the spec to the [__format__] of the
    object's type, and [fmt] is what that returns or raises for each spec of
    the templates.  For a dict or a list it raises [TypeError] under every
    spec but the empty one; for [Decimal('85.55')] under [.1f] it returns
    [85.6].  [fmt] is a function: formatting an object neither draws a
    random number nor touches the chatbot. *)
Inductive pyval :=
| PyFloat (x : spec_float)
| PyInt (z : Z)
| PyBool (b : bool)
| PyStr (s : str)
| PyNone
| PyObject (fmt : fspec -> result str).

(** [format(v, spec)] *)
Definition format_value (sp : fspec) (v : pyval) : result str :=
  match v with
  | PyFloat x =>
      if ftype_f sp then Ok (format_float (grouping sp) (default_precision (precision sp)) x)
      else Raise NotModelled
  | PyInt z =>
      if ftype_f sp then
        rbind (int_to_float z) (fun x =>
          Ok (format_float (grouping sp) (default_precision (precision sp)) x))
      else match precision sp with
           | Some _ => Raise ValueError
           | None => Ok (format_int (grouping sp) z)
           end
  | PyBool b =>
      let z := if b then 1%Z else 0%Z in
      if ftype_f sp then
        rbind (int_to_float z) (fun x =>
          Ok (format_float (grouping sp) (default_precision (precision sp)) x))
      else match precision sp, grouping sp with
           | Some _, _ => Raise ValueError
           | None, true => Ok (format_int true z)
           | None, false => Ok (if b then u "True" else u "False")
           end
  | PyStr s =>
      if ftype_f sp || grouping sp then Raise ValueError
      else match precision sp with
           | Some n => Ok (take n s)
           | None => Ok s
           end
  | PyNone =>
      match sp with
      | FSpec false None false => Ok (u "None")
      | _ => Raise TypeError
      end
  | PyObject fmt => fmt sp
  end.

(** ** [str.format] with keyword arguments *)

Inductive segment :=
| Lit (s : str)
| Field (name spec : str).

Definition push (c : char) (segs : list segment) : list segment :=
  match segs with
  | Lit l :: r => Lit (c :: l) :: r
  | _ => Lit [c] :: segs
  end.

(** A replacement field [name] or [name:spec].  Conversions ([!r]),
    attribute and index lookups are not used by any template. *)
Fixpoint split_field (name : str) (s : str) : result segment :=
  match s with
  | [] => Ok (Field (rev name) [])
  | c :: s' =>
      if c =? 58 then Ok (Field (rev name) s')
      else if (c =? 33) || (c =? 46) || (c =? 91) then Raise NotModelled
      else split_field (c :: name) s'
  end.

(** The scanner: [fld] holds the characters read since an open brace, most
    recent first.  A doubled brace is a literal brace. *)
Fixpoint parse_go (fld : option str) (s : str) : result (list segment) :=
  match s with
  | [] =>
      match fld with
      | None => Ok []
      | Some _ => Raise ValueError
      end
  | c :: s' =>
      match fld with
      | Some acc =>
          if c =? 125 then
            rbind (split_field [] (rev acc)) (fun seg =>
            rbind (parse_go None s') (fun rest => Ok (seg :: rest)))
          else if c =? 123 then Raise NotModelled
          else parse_go (Some (c :: acc)) s'
      | None =>
          if c =? 123 then
            match s' with
            | c2 :: s'' =>
                if c2 =? 123 then rbind (parse_go None s'') (fun r => Ok (push 123 r))
                else parse_go (Some []) s'
            | [] => Raise ValueError
            end
          else if c =? 125 then
            match s' with
            | c2 :: s'' =>
                if c2 =? 125 then rbind (parse_go None s'') (fun r => Ok (push 125 r))
                else Raise ValueError
            | [] => Raise ValueError
            end
          else rbind (parse_go None s') (fun r => Ok (push c r))
      end
  end.

Definition parse_template (t : str) : result (list segment) := parse_go None t.

Definition kwargs := list (str * pyval).

Fixpoint kwarg (name : str) (kw : kwargs) : option pyval :=
  match kw with
  | [] => None
  | (k, v) :: kw' => if decide (k = name) then Some v else kwarg name kw'
  end.

(** A field with an empty or numeric name asks for a positional argument,
    and none is ever passed. *)
Definition positional (name : str) : bool := forallb is_digit name.

Fixpoint fill (kw : kwargs) (segs : list segment) : result str :=
  match segs with
  | [] => Ok []
  | Lit l :: r => rbind (fill kw r) (fun rest => Ok (l ++ rest))
  | Field name spec :: r =>
      if positional name then Raise IndexError
      else match kwarg name kw with
           | None => Raise (KeyError name)
           | Some v =>
               rbind (parse_spec spec) (fun sp =>
               rbind (format_value sp v) (fun s =>
               rbind (fill kw r) (fun rest => Ok (s ++ rest))))
           end
  end.

(** [t.format] called with the keyword arguments [kw] *)
Definition format (t : str) (kw : kwargs) : result str :=
  rbind (parse_template t) (fill kw).

(** ** The runtime: random numbers and the clock *)

(** Order on the exact values of finite floats; false when either side is an
    infinity or a NaN. *)
Definition float_Z (k : Z) (x : spec_float) : option Z :=
  match x with
  | S754_zero _ => Some 0%Z
  | S754_finite s m e => Some (cond_Zopp s (Zpos m) * 2 ^ (e - k))%Z
  | _ => None
  end.

Definition float_exp (x : spec_float) : Z :=
  match x with
  | S754_finite _ _ e => e
  | _ => 0%Z
  end.

Definition float_le (x y : spec_float) : Prop :=
  let k := Z.min (float_exp x) (float_exp y) in
  match float_Z k x, float_Z k y with
  | Some a, Some b => (a <= b)%Z
  | _, _ => False
  end.

(** The float of an int literal and of a literal [m * 2^e]. *)
Definition of_int (z : Z) : spec_float :=
  match z with
  | Z0 => S754_zero false
  | Zpos p => S754_finite false p 0
  | Zneg p => S754_finite true p 0
  end.

Definition dyadic (m : positive) (e : Z) : spec_float := S754_finite false m e.

(** [random.uniform], [random.randint], the index drawn by [random.choice],
    and [datetime.now().strftime('%H:%M:%S')], each reading and advancing
    the state [W] of the outside world.  The laws are the documented ranges
    of the [random] module. *)
Class World (W : Type) := {
  uniform : spec_float -> spec_float -> W -> spec_float * W;
  randint : Z -> Z -> W -> Z * W;
  randbelow : nat -> W -> nat * W;
  now_hms : W -> str * W;
  uniform_range a b w :
    float_le a b -> float_le a (uniform a b w).1 /\ float_le (uniform a b w).1 b;
  randint_range a b w :
    (a <= b)%Z -> (a <= (randint a b w).1 <= b)%Z;
  randbelow_range n w :
    (0 < n)%nat -> ((randbelow n w).1 < n)%nat
}.

(** ** The chatbot *)

Record turn := Turn {
  timestamp : str;
  user : str;
  assistant : str
}.

(** The instance attributes set by [__init__]. *)
Record chatbot := Chatbot {
  context : gmap str pyval;
  conversation_history : list turn;
  knowledge_base : kb;
  default_responses : list str
}.

Definition init : chatbot :=
  Chatbot ∅ [] init_knowledge_base init_default_responses.

(** Truth value of [matched_topic]: [None] and the empty string are false. *)
Definition truthy (m : option str) : bool :=
  match m with
  | Some (_ :: _) => true
  | _ => false
  end.

(** Truth value of [dashboard_data]: [None] and the empty dict are false. *)
Definition truthy_data (d : option (gmap str pyval)) : bool :=
  match d with
  | Some m => bool_decide (m ≠ ∅)
  | None => false
  end.

(** The inner loop of [get_response]: the first keyword found in the query
    assigns [matched_topic] and leaves the loop. *)
Fixpoint match_keywords (topic : str) (kws : list str) (query_lower : str)
    (matched_topic : option str) : option str :=
  match kws with
  | [] => matched_topic
  | keyword :: kws' =>
      if contains query_lower keyword then Some topic
      else match_keywords topic kws' query_lower matched_topic
  end.

(** The outer loop: it leaves once [matched_topic] is true. *)
Fixpoint match_topics (items : kb) (query_lower : str)
    (matched_topic : option str) : option str :=
  match items with
  | [] => matched_topic
  | (topic, info) :: items' =>
      let matched_topic := match_keywords topic (keywords info) query_lower matched_topic in
      if truthy matched_topic then matched_topic
      else match_topics items' query_lower matched_topic
  end.

(** [self.knowledge_base[topic]] *)
Fixpoint kb_item (items : kb) (topic : str) : result topic_info :=
  match items with
  | [] => Raise (KeyError topic)
  | (k, info) :: items' => if decide (k = topic) then Ok info else kb_item items' topic
  end.

Section Chatbot.
Context {ops : StrOps} {W : Type} {world : World W}.

(** Computations that draw from the outside world and may raise. *)
Definition R (A : Type) : Type := W -> result A * W.

Definition ret {A} (a : A) : R A := fun w => (Ok a, w).

Definition bind {A B} (c : R A) (k : A -> R B) : R B :=
  fun w =>
    match c w with
    | (Ok a, w') => k a w'
    | (Raise e, w') => (Raise e, w')
    end.

Definition liftr {A} (r : result A) : R A := fun w => (r, w).

Definition draw {A} (f : W -> A * W) : R A :=
  fun w => let '(a, w') := f w in (Ok a, w').

Notation "x <- c ;; k" := (bind c (fun x => k))
  (at level 100, c at next level, right associativity).

(** [random.choice(seq)] *)
Definition choice {A} (seq : list A) : R A :=
  match seq with
  | [] => liftr (Raise IndexError)
  | _ :: _ =>
      i <- draw (randbelow (length seq)) ;;
      match seq !! i with
      | Some x => ret x
      | None => liftr (Raise IndexError)
      end
  end.

Definition random_uniform (a b : spec_float) : R pyval :=
  x <- draw (uniform a b) ;; ret (PyFloat x).

Definition random_randint (a b : Z) : R pyval :=
  z <- draw (randint a b) ;; ret (PyInt z).

Definition joined (lines : list str) : pyval := PyStr (join nl lines).

(** The keyword arguments each branch of [_generate_response] passes to
    [template.format], drawn in the order the source evaluates them.  Only
    the first reads [self.context]; the default of [dict.get] is an argument,
    so its draw happens whether or not the key is present. *)
Definition oee_args (self : chatbot) : R kwargs :=
  sampled <- random_uniform (of_int 78) (of_int 92) ;;
  let oee := default sampled (context self !! u "oee") in
  availability <- random_uniform (of_int 88) (of_int 96) ;;
  performance <- random_uniform (of_int 85) (of_int 95) ;;
  quality <- random_uniform (of_int 95) (dyadic 199 (-1)) ;;
  recommendation <- choice oee_recommendations ;;
  ret [(u "oee", oee); (u "availability", availability);
       (u "performance", performance); (u "quality", quality);
       (u "recommendation", PyStr recommendation)].

Definition maintenance_args : R kwargs :=
  savings <- random_randint 15000 45000 ;;
  ret [(u "equipment_status", joined maintenance_equipment_list);
       (u "maintenance_schedule", joined maintenance_schedule);
       (u "savings", savings)].

Definition energy_args : R kwargs :=
  today_kwh <- random_uniform (of_int 15000) (of_int 18000) ;;
  peak_kw <- random_uniform (of_int 800) (of_int 1200) ;;
  cost <- random_uniform (of_int 1800) (of_int 2500) ;;
  carbon <- random_uniform (of_int 8000) (of_int 12000) ;;
  ret [(u "today_kwh", today_kwh); (u "peak_kw", peak_kw); (u "cost", cost);
       (u "carbon", carbon); (u "recommendations", joined energy_recommendations)].

Definition quality_args : R kwargs :=
  fpy <- random_uniform (of_int 95) (of_int 99) ;;
  defect_rate <- random_uniform (dyadic 1 (-1)) (dyadic 3 (-1)) ;;
  rework_rate <- random_uniform (dyadic 3602879701896397 (-52)) (of_int 2) ;;
  insight <- choice quality_insights ;;
  ret [(u "fpy", fpy); (u "defect_rate", defect_rate); (u "rework_rate", rework_rate);
       (u "defect_types", joined quality_defect_types); (u "insight", PyStr insight)].

Definition production_args : R kwargs :=
  units <- random_randint 4500 5500 ;;
  target_pct <- random_uniform (of_int 92) (of_int 105) ;;
  cycle_time <- random_uniform (of_int 12) (of_int 16) ;;
  throughput <- random_uniform (of_int 200) (of_int 250) ;;
  ret [(u "units", units); (u "target_pct", target_pct); (u "cycle_time", cycle_time);
       (u "throughput", throughput);
       (u "line_production", joined production_line_production)].

Definition alert_args : R kwargs :=
  ret [(u "alerts", joined alert_alerts); (u "actions", joined alert_actions)].

Definition anomaly_args : R kwargs :=
  count <- random_randint 3 12 ;;
  rate <- random_uniform (dyadic 1 (-1)) (dyadic 5 (-1)) ;;
  confidence <- random_uniform (of_int 92) (of_int 98) ;;
  root_cause <- choice anomaly_root_causes ;;
  ret [(u "count", count); (u "rate", rate); (u "confidence", confidence);
       (u "anomaly_list", joined anomaly_anomaly_list);
       (u "root_cause", PyStr root_cause)].

Definition summary_args : R kwargs :=
  units <- random_randint 4500 5500 ;;
  target_pct <- random_uniform (of_int 92) (of_int 105) ;;
  oee <- random_uniform (of_int 78) (of_int 92) ;;
  energy <- random_uniform (of_int 15000) (of_int 18000) ;;
  cost <- random_uniform (of_int 1800) (of_int 2500) ;;
  fpy <- random_uniform (of_int 95) (of_int 99) ;;
  defect_rate <- random_uniform (dyadic 1 (-1)) (dyadic 3 (-1)) ;;
  health_status <- choice summary_health_statuses ;;
  alert_count <- random_randint 2 6 ;;
  priority <- choice summary_priorities ;;
  ret [(u "units", units); (u "target_pct", target_pct); (u "oee", oee);
       (u "energy", energy); (u "cost", cost); (u "fpy", fpy);
       (u "defect_rate", defect_rate); (u "health_status", PyStr health_status);
       (u "next_maintenance", PyStr (u "Feb 5, 2026"));
       (u "alert_count", alert_count); (u "priority", PyStr priority)].

Definition optimize_args : R kwargs :=
  oee_improvement <- random_uniform (of_int 3) (of_int 8) ;;
  energy_savings <- random_randint 10 20 ;;
  quality_improvement <- random_uniform (dyadic 1 (-1)) (of_int 2) ;;
  ret [(u "high_impact", joined optimize_high_impact);
       (u "medium_impact", joined optimize_medium_impact);
       (u "quick_wins", joined optimize_quick_wins);
       (u "oee_improvement", oee_improvement); (u "energy_savings", energy_savings);
       (u "quality_improvement", quality_improvement)].

(** The keyword arguments of a topic; [None] for the branches that return the
    template as it is ([help], and the final [return template]). *)
Definition topic_args (self : chatbot) (topic : str) : option (R kwargs) :=
  if decide (topic = u "oee") then Some (oee_args self)
  else if decide (topic = u "maintenance") then Some maintenance_args
  else if decide (topic = u "energy") then Some energy_args
  else if decide (topic = u "quality") then Some quality_args
  else if decide (topic = u "production") then Some production_args
  else if decide (topic = u "alert") then Some alert_args
  else if decide (topic = u "anomaly") then Some anomaly_args
  else if decide (topic = u "summary") then Some summary_args
  else if decide (topic = u "optimize") then Some optimize_args
  else None.

Definition _generate_response (self : chatbot) (topic : str) : R str :=
  info <- liftr (kb_item (knowledge_base self) topic) ;;
  let template := response info in
  match topic_args self topic with
  | Some args => kw <- args ;; liftr (format template kw)
  | None => ret template
  end.

(** [update_context], [get_conversation_history], [clear_history].  The
    instance keeps the very mapping the host passed, and hands out the very
    list it logs to; mappings and lists are values here, so the model
    describes hosts that do not mutate them afterwards. *)
Definition update_context (self : chatbot) (data : gmap str pyval) : chatbot :=
  Chatbot data (conversation_history self) (knowledge_base self) (default_responses self).

Definition get_conversation_history (self : chatbot) : list turn :=
  conversation_history self.

Definition clear_history (self : chatbot) : chatbot :=
  Chatbot (context self) [] (knowledge_base self) (default_responses self).

Definition append_turn (self : chatbot) (t : turn) : chatbot :=
  Chatbot (context self) (conversation_history self ++ [t])
    (knowledge_base self) (default_responses self).

(** The fallback of [get_response]. *)
Definition default_response (self : chatbot) (user_query : str) : R str :=
  t <- choice (default_responses self) ;;
  liftr (format t [(u "query", PyStr (take 50 user_query))]).

(** The part of [get_response] that finds the matching topic: the query is
    lower-cased and stripped, then scanned against the table. *)
Definition classify (self : chatbot) (user_query : str) : option str :=
  let query_lower := str_strip (str_lower user_query) in
  match_topics (knowledge_base self) query_lower None.

(** [get_response]: the result or the exception raised, with the instance
    and the world as the call leaves them.  An exception leaves the context
    assigned and the log as it was. *)
Definition get_response (self : chatbot) (user_query : str)
    (dashboard_data : option (gmap str pyval)) (w : W) : result str * chatbot * W :=
  let self :=
    match dashboard_data with
    | Some d => if truthy_data dashboard_data then update_context self d else self
    | None => self
    end in
  let matched_topic := classify self user_query in
  let answer :=
    match matched_topic with
    | Some topic =>
        if truthy matched_topic then _generate_response self topic
        else default_response self user_query
    | None => default_response self user_query
    end in
  match answer w with
  | (Raise e, w) => (Raise e, self, w)
  | (Ok response, w) =>
      let '(now, w) := now_hms w in
      (Ok response, append_turn self (Turn now user_query response), w)
  end.

(** A chatbot holding the tables of [__init__], with any context and log. *)
Definition bot (ctx : gmap str pyval) (hist : list turn) : chatbot :=
  Chatbot ctx hist init_knowledge_base init_default_responses.

(** The calls a host can make, and a session of them. *)
Inductive call :=
| UpdateContext (data : gmap str pyval)
| GetResponse (user_query : str) (dashboard_data : option (gmap str pyval))
| GetConversationHistory
| ClearHistory.

Definition step (c : call) (self : chatbot) (w : W) : chatbot * W :=
  match c with
  | UpdateContext data => (update_context self data, w)
  | GetResponse q d => let '(_, self, w) := get_response self q d w in (self, w)
  | GetConversationHistory => (self, w)
  | ClearHistory => (clear_history self, w)
  end.

Fixpoint run (calls : list call) (self : chatbot) (w : W) : chatbot * W :=
  match calls with
  | [] => (self, w)
  | c :: calls' => let '(self, w) := step c self w in run calls' self w
  end.

(** Successive calls of [get_response], with the outcome of each. *)
Fixpoint respond_all (calls : list (str * option (gmap str pyval)))
    (self : chatbot) (w : W) : list (result str) * chatbot * W :=
  match calls with
  | [] => ([], self, w)
  | (q, d) :: calls' =>
      let '(r, self, w) := get_response self q d w in
      let '(rs, self, w) := respond_all calls' self w in
      (r :: rs, self, w)
  end.

End Chatbot.

(** ** The vocabulary of the properties *)

(** Some keyword of the entry occurs in the query. *)
Definition topic_matches (query_lower : str) (item : str * topic_info) : bool :=
  existsb (contains query_lower) (keywords item.2).

(** The first entry of the table, in declaration order, with a keyword in the
    query. *)
Definition first_match (items : kb) (query_lower : str) : option str :=
  fst <$> List.find (topic_matches query_lower) items.

(** What a call of [get_response] works with: the instance after the
    assignment to [self.context]. *)
Definition in_force (self : chatbot) (d : option (gmap str pyval)) : chatbot :=
  match d with
  | Some m => if decide (m = ∅) then self else update_context self m
  | None => self
  end.

(** A turn without its timestamp. *)
Definition asked_and_answered (t : turn) : str * str := (user t, assistant t).

(** What a call adds to the log: its query with the text it returned. *)
Definition logged (q : str) (r : result str) : list (str * str) :=
  match r with
  | Ok s => [(q, s)]
  | Raise _ => []
  end.

(** The call returned; it did not raise. *)
Definition returned {A} (r : result A) : Prop :=
  match r with
  | Ok _ => True
  | Raise _ => False
  end.

(** What a keyword argument is known to be: a float or an int drawn from a
    fixed range, a string, or a number that the [f] format accepts. *)
Inductive sort :=
| SFloat (lo hi : spec_float)
| SInt (lo hi : Z)
| SStr
| SNum.

(** The numbers: floats, bools, and the ints that [float] can convert;
    [format(v, '.1f')] prints each of them. *)
Definition numeric (v : pyval) : Prop :=
  match v with
  | PyFloat _ | PyBool _ => True
  | PyInt z => returned (int_to_float z)
  | _ => False
  end.

(** The value is of the sort, within its range. *)
Definition has_sort (v : pyval) (s : sort) : Prop :=
  match s, v with
  | SFloat lo hi, PyFloat x => float_le lo x /\ float_le x hi
  | SInt lo hi, PyInt z => (lo <= z <= hi)%Z
  | SStr, PyStr _ => True
  | SNum, _ => numeric v
  | _, _ => False
  end.

(** The keywords of a [format] call with the sort of each, and the keyword
    arguments that follow it. *)
Definition signature := list (str * sort).

Definition typed (kw : kwargs) (sig : signature) : Prop :=
  Forall2 (fun (a : str * pyval) (b : str * sort) => a.1 = b.1 /\ has_sort a.2 b.2) kw sig.

(** The signature of each branch of [_generate_response], with the bounds
    of its calls of [random.uniform] and [random.randint]. *)
Definition oee_rest_sig : signature :=
  [(u "availability", SFloat (of_int 88) (of_int 96));
   (u "performance", SFloat (of_int 85) (of_int 95));
   (u "quality", SFloat (of_int 95) (dyadic 199 (-1)));
   (u "recommendation", SStr)].

Definition maintenance_sig : signature :=
  [(u "equipment_status", SStr); (u "maintenance_schedule", SStr);
   (u "savings", SInt 15000 45000)].

Definition energy_sig : signature :=
  [(u "today_kwh", SFloat (of_int 15000) (of_int 18000));
   (u "peak_kw", SFloat (of_int 800) (of_int 1200));
   (u "cost", SFloat (of_int 1800) (of_int 2500));
   (u "carbon", SFloat (of_int 8000) (of_int 12000));
   (u "recommendations", SStr)].

Definition quality_sig : signature :=
  [(u "fpy", SFloat (of_int 95) (of_int 99));
   (u "defect_rate", SFloat (dyadic 1 (-1)) (dyadic 3 (-1)));
   (u "rework_rate", SFloat (dyadic 3602879701896397 (-52)) (of_int 2));
   (u "defect_types", SStr); (u "insight", SStr)].

Definition production_sig : signature :=
  [(u "units", SInt 4500 5500);
   (u "target_pct", SFloat (of_int 92) (of_int 105));
   (u "cycle_time", SFloat (of_int 12) (of_int 16));
   (u "throughput", SFloat (of_int 200) (of_int 250));
   (u "line_production", SStr)].

Definition alert_sig : signature := [(u "alerts", SStr); (u "actions", SStr)].

Definition anomaly_sig : signature :=
  [(u "count", SInt 3 12);
   (u "rate", SFloat (dyadic 1 (-1)) (dyadic 5 (-1)));
   (u "confidence", SFloat (of_int 92) (of_int 98));
   (u "anomaly_list", SStr); (u "root_cause", SStr)].

Definition summary_sig : signature :=
  [(u "units", SInt 4500 5500);
   (u "target_pct", SFloat (of_int 92) (of_int 105));
   (u "oee", SFloat (of_int 78) (of_int 92));
   (u "energy", SFloat (of_int 15000) (of_int 18000));
   (u "cost", SFloat (of_int 1800) (of_int 2500));
   (u "fpy", SFloat (of_int 95) (of_int 99));
   (u "defect_rate", SFloat (dyadic 1 (-1)) (dyadic 3 (-1)));
   (u "health_status", SStr); (u "next_maintenance", SStr);
   (u "alert_count", SInt 2 6); (u "priority", SStr)].

Definition optimize_sig : signature :=
  [(u "high_impact", SStr); (u "medium_impact", SStr); (u "quick_wins", SStr);
   (u "oee_improvement", SFloat (of_int 3) (of_int 8));
   (u "energy_savings", SInt 10 20);
   (u "quality_improvement", SFloat (dyadic 1 (-1)) (of_int 2))].

(** The OEE branch when the value under [oee] is one that [.1f] prints. *)
Definition oee_sig : signature := (u "oee", SNum) :: oee_rest_sig.

(** The sort of a keyword. *)
Fixpoint sig_lookup (n : str) (sig : signature) : option sort :=
  match sig with
  | [] => None
  | (k, s) :: sig' => if decide (k = n) then Some s else sig_lookup n sig'
  end.

(** A format spec that accepts every value of the sort. *)
Definition sort_fits (sp : fspec) (s : sort) : bool :=
  match s with
  | SFloat _ _ | SNum => ftype_f sp
  | SInt _ _ => negb (ftype_f sp) && match precision sp with None => true | Some _ => false end
  | SStr => negb (ftype_f sp) && negb (grouping sp)
  end.

(** The field names a keyword of the signature, and its spec parses and fits
    the keyword's sort. *)
Definition field_checks (sig : signature) (seg : segment) : bool :=
  match seg with
  | Lit _ => true
  | Field n sp =>
      negb (positional n) &&
      match sig_lookup n sig, parse_spec sp with
      | Some s, Ok fs => sort_fits fs s
      | _, _ => false
      end
  end.

(** The template parses and each of its fields checks. *)
Definition template_checks (sig : signature) (t : str) : bool :=
  match parse_template t with
  | Ok segs => forallb (field_checks sig) segs
  | Raise _ => false
  end.

(** Replacing every occurrence of the text [old] in [s] by [new]; [skip]
    counts the characters of a replaced occurrence still to be dropped. *)
Fixpoint substitute_go (skip : nat) (old new s : str) : str :=
  match s with
  | [] => []
  | c :: s' =>
      match skip with
      | S k => substitute_go k old new s'
      | O =>
          if starts_with old s then new ++ substitute_go (length old - 1) old new s'
          else c :: substitute_go 0 old new s'
      end
  end.

(** [s] with every [old] replaced by [new]. *)
Definition substitute (old new s : str) : str := substitute_go 0 old new s.

(** The placeholders a template references, in order of appearance. *)
Definition field_names (segs : list segment) : list str :=
  flat_map (fun seg => match seg with Field n _ => [n] | Lit _ => [] end) segs.

Definition placeholders (t : str) : list str :=
  match parse_template t with
  | Ok segs => field_names segs
  | Raise _ => []
  end.

(** Every placeholder of the template is a keyword of the signature. *)
Definition supplied_by (sig : signature) (t : str) : bool :=
  forallb (fun n => bool_decide (n ∈ sig.*1)) (placeholders t).

(** The spec of the field [{oee:.1f}]. *)
Definition oee_spec : fspec := FSpec false (Some 1%nat) true.

(** The well-formed contexts: the value under [oee], if any, is a number, a
    float, a bool or an int that [float] converts. *)
Definition well_formed (ctx : gmap str pyval) : Prop :=
  match ctx !! u "oee" with
  | Some v => numeric v
  | None => True
  end.

(** The context passed to a call, if one is passed, is well-formed. *)
Definition well_formed_call (d : option (gmap str pyval)) : Prop :=
  match d with
  | Some m => well_formed m
  | None => True
  end.

(** The call passes no context, or an empty one. *)
Definition without_context (d : option (gmap str pyval)) : Prop :=
  d = None \/ d = Some ∅.

Section Session.
Context {W : Type} {world : World W}.

(** The log entry of a returned answer. *)
Definition log_turn (self : chatbot) (q : str) (r : result str * W) :
    result str * chatbot * W :=
  match r with
  | (Raise e, w) => (Raise e, self, w)
  | (Ok s, w) => (Ok s, append_turn self (Turn (now_hms w).1 q s), (now_hms w).2)
  end.

(** The topics other than OEE, with what they draw. *)
Definition sampled_topics : list (str * R (W:=W) kwargs * signature) :=
  [(u "maintenance", maintenance_args, maintenance_sig);
   (u "energy", energy_args, energy_sig);
   (u "quality", quality_args, quality_sig);
   (u "production", production_args, production_sig);
   (u "alert", alert_args, alert_sig);
   (u "anomaly", anomaly_args, anomaly_sig);
   (u "summary", summary_args, summary_sig);
   (u "optimize", optimize_args, optimize_sig)].

End Session.

(** ** A concrete runtime *)

(** [str.lower] on ASCII letters; other code points are left alone, which is
    what the runtime does on ASCII text. *)
Definition ascii_lower (s : str) : str :=
  List.map (fun c => if (65 <=? c) && (c <=? 90) then c + 32 else c) s.

(** The code points [str.isspace] accepts. *)
Definition is_space (c : char) : bool :=
  ((9 <=? c) && (c <=? 13)) || ((28 <=? c) && (c <=? 32)) ||
  (c =? 133) || (c =? 160) || (c =? 5760) ||
  ((8192 <=? c) && (c <=? 8202)) || (c =? 8232) || (c =? 8233) ||
  (c =? 8239) || (c =? 8287) || (c =? 12288).

Fixpoint lstrip (s : str) : str :=
  match s with
  | c :: s' => if is_space c then lstrip s' else s
  | [] => []
  end.

Definition strip (s : str) : str := rev (lstrip (rev (lstrip s))).

Definition ascii_ops : StrOps := {| str_lower := ascii_lower; str_strip := strip |}.

#[export] Instance float_le_dec x y : Decision (float_le x y).
Proof.
  unfold float_le.
  destruct (float_Z _ x); [destruct (float_Z _ y)|]; apply _.
Defined.

(** A world that replays recorded draws: each request takes the next
    recorded value and brings it into the requested range. *)
Record tape := Tape {
  floats : list spec_float;
  ints : list Z;
  clock : list str
}.

Definition tape_uniform (a b : spec_float) (t : tape) : spec_float * tape :=
  match floats t with
  | x :: rest =>
      (if decide (float_le a x /\ float_le x b) then x else a,
       Tape rest (ints t) (clock t))
  | [] => (a, t)
  end.

Definition tape_randint (a b : Z) (t : tape) : Z * tape :=
  match ints t with
  | z :: rest => (Z.max a (Z.min b z), Tape (floats t) rest (clock t))
  | [] => (a, t)
  end.

Definition tape_randbelow (n : nat) (t : tape) : nat * tape :=
  match ints t with
  | z :: rest => (Z.to_nat z mod n, Tape (floats t) rest (clock t))%nat
  | [] => (0%nat, t)
  end.

Definition tape_now (t : tape) : str * tape :=
  match clock t with
  | s :: rest => (s, Tape (floats t) (ints t) rest)
  | [] => (u "00:00:00", t)
  end.

#[export] Instance tape_world : World tape.
Proof.
  refine {| uniform := tape_uniform; randint := tape_randint;
            randbelow := tape_randbelow; now_hms := tape_now |}.
  - intros a b t Hab. unfold tape_uniform.
    assert (Haa : float_le a a).
    { revert Hab. unfold float_le. rewrite Z.min_id.
      destruct a; simpl; try tauto; intros _; lia. }
    destruct (floats t) as [|x rest]; simpl; [done|].
    destruct (decide _) as [Hx|_]; done.
  - intros a b t Hab. unfold tape_randint. destruct (ints t); simpl; lia.
  - intros n t Hn. unfold tape_randbelow. destruct (ints t); simpl; [lia|].
    apply Nat.mod_upper_bound. lia.
Defined.

(** A recorded world: four floats, two ints, one clock reading. *)
Definition demo_tape : tape :=
  Tape [of_int 80; of_int 90; of_int 91; of_int 97] [1%Z; 2%Z] [u "12:00:00"].

(** A world whose first three draws lie in the ranges of the quality topic:
    97, 0.75 and 1.5. *)
Definition quality_tape : tape :=
  Tape [of_int 97; dyadic 3 (-2); dyadic 3 (-1)] [1%Z] [u "12:00:00"].

(** 99.9 and 11.1 as the binary floats the literals denote. *)
Definition f99_9 : spec_float := dyadic 3514918771674317 (-45).

Definition f11_1 : spec_float := dyadic 6248744482976563 (-49).

(** The text a call returned; empty when it raised. *)
Definition the_answer (r : result str * chatbot * tape) : str :=
  match r.1.1 with
  | Ok s => s
  | Raise _ => []
  end.

(** No keyword of the table occurs in the query, as a computation. *)
Definition no_keyword (q : str) : bool :=
  forallb (fun item : str * topic_info =>
             forallb (fun kw => negb (contains q kw)) (keywords item.2))
          init_knowledge_base.

(** ** The host: the chat tab of app.py *)

(** An entry of [st.session_state.chat_messages]. *)
Record message := Message {
  role : str;
  content : str
}.

(** The entries of [st.session_state] that the chat tab reads and writes:
    the message list, the chatbot, and the counter in the key of the text
    input. *)
Record session := Session {
  chat_messages : list message;
  session_chatbot : chatbot;
  chat_input_key : Z
}.

(** The quick action buttons: label and prompt. *)
Definition quick_prompts : list (str * str) :=
  [(u "📊 Daily Summary", u "Give me today's summary");
   (u "🔧 Maintenance", u "What maintenance is needed?");
   (u "⚡ Energy", u "How is energy consumption?");
   (u "✅ Quality", u "What's the current quality status?");
   (u "💡 Optimize", u "How can we improve efficiency?")].

Section Host.
Context {ops : StrOps} {W : Type} {world : World W}.

(** The state before the first script run. *)
Definition new_session : session := Session [] init 0.

(** The three statements that every sending path of the tab runs: the
    prompt is appended as the user's message, the chatbot is asked with the
    data of this script run, and the answer is appended as the assistant's.
    An exception of [get_response] ends the script run after the first
    append. *)
Definition ask (prompt : str) (current_data : gmap str pyval) (s : session) (w : W) :
    result str * session * W :=
  let messages := chat_messages s ++ [Message (u "user") prompt] in
  match get_response (session_chatbot s) prompt (Some current_data) w with
  | (Raise e, bot', w) => (Raise e, Session messages bot' (chat_input_key s), w)
  | (Ok response, bot', w) =>
      (Ok response,
       Session (messages ++ [Message (u "assistant") response]) bot' (chat_input_key s),
       w)
  end.

(** The body of quick action button [i]; there are five buttons. *)
Definition press_quick (i : nat) (current_data : gmap str pyval) (s : session) (w : W) :
    session * W :=
  match quick_prompts !! i with
  | Some (_, prompt) => let '(_, s, w) := ask prompt current_data s w in (s, w)
  | None => (s, w)
  end.

(** The body of the Send button: nothing happens on an input that is blank
    after stripping; the key counter moves once the answer is in. *)
Definition press_send (user_input : str) (current_data : gmap str pyval)
    (s : session) (w : W) : session * W :=
  match str_strip user_input with
  | [] => (s, w)
  | _ :: _ =>
      match ask user_input current_data s w with
      | (Ok _, s, w) =>
          (Session (chat_messages s) (session_chatbot s) (chat_input_key s + 1), w)
      | (Raise _, s, w) => (s, w)
      end
  end.

(** The body of the Clear Chat button. *)
Definition press_clear (s : session) : session :=
  Session [] (clear_history (session_chatbot s)) (chat_input_key s + 1).

(** One script run with a button pressed, and a series of them, each with
    the data generated for that run. *)
Inductive event :=
| PressQuick (i : nat)
| PressSend (user_input : str)
| PressClear.

Definition handle (e : event) (current_data : gmap str pyval) (s : session) (w : W) :
    session * W :=
  match e with
  | PressQuick i => press_quick i current_data s w
  | PressSend user_input => press_send user_input current_data s w
  | PressClear => (press_clear s, w)
  end.

Fixpoint play (events : list (event * gmap str pyval)) (s : session) (w : W) :
    session * W :=
  match events with
  | [] => (s, w)
  | (e, current_data) :: events' =>
      let '(s, w) := handle e current_data s w in play events' s w
  end.

End Host.

(** The numbers in the titles of the response expanders: the assistant's
    message at index [idx] of the list is titled [Response (idx // 2) + 1]. *)
Fixpoint response_numbers_from (idx : nat) (msgs : list message) : list nat :=
  match msgs with
  | [] => []
  | m :: rest =>
      (if decide (role m = u "assistant") then [(idx / 2 + 1)%nat] else []) ++
      response_numbers_from (S idx) rest
  end.

Definition response_numbers (msgs : list message) : list nat :=
  response_numbers_from 0 msgs.

(** ** Further vocabulary *)

(** The message list that goes with a log: for each turn the user's message
    and the assistant's. *)
Definition transcript (hist : list turn) : list message :=
  flat_map (fun t => [Message (u "user") (user t); Message (u "assistant") (assistant t)])
           hist.

(** The message list and the chatbot's log tell the same story, and the
    stored context is one every call returns on. *)
Definition in_step (s : session) : Prop :=
  exists ctx hist,
    session_chatbot s = bot ctx hist /\ well_formed ctx /\
    chat_messages s = transcript hist.

(** What [format(v, '.1f')] raises: [ValueError] on a str, [TypeError] on
    [None], [OverflowError] on an int beyond the range of [float], and on any
    other object what the [__format__] of its type raises; nothing on a
    float, a bool, an int within range, or an object whose [__format__]
    accepts the spec. *)
Definition oee_error (v : pyval) : option exn :=
  match v with
  | PyFloat _ | PyBool _ => None
  | PyInt z =>
      match int_to_float z with
      | Ok _ => None
      | Raise _ => Some OverflowError
      end
  | PyStr _ => Some ValueError
  | PyNone => Some TypeError
  | PyObject fmt =>
      match fmt oee_spec with
      | Ok _ => None
      | Raise e => Some e
      end
  end.

(** What [get_response] makes of [matched_topic]: a value that is false
    counts as no topic. *)
Definition effective (m : option str) : option str :=
  if truthy m then m else None.

(** The table without the entries whose key is the empty string. *)
Definition named_entries (items : kb) : kb :=
  List.filter (fun item : str * topic_info => negb (bool_decide (item.1 = []))) items.

(** The table with some keywords struck out of every entry. *)
Definition without_keywords (dead : list str) (items : kb) : kb :=
  List.map (fun item : str * topic_info =>
              (item.1,
               TopicInfo (List.filter (fun kw => negb (bool_decide (kw ∈ dead)))
                            (keywords item.2))
                         (response item.2)))
           items.

(** The texts between double quotes in [s], in order; [inside] holds the
    text read since an opening quote, most recent first. *)
Fixpoint quoted_go (inside : option str) (s : str) : list str :=
  match s with
  | [] => []
  | c :: s' =>
      match inside with
      | None => if c =? 34 then quoted_go (Some []) s' else quoted_go None s'
      | Some acc =>
          if c =? 34 then rev acc :: quoted_go None s'
          else quoted_go (Some (c :: acc)) s'
      end
  end.

Definition quoted (s : str) : list str := quoted_go None s.

(** The alert template with its two lists filled in. *)
Definition alert_text : str :=
  substitute (u "{actions}") (join nl alert_actions)
    (substitute (u "{alerts}") (join nl alert_alerts) response_alert).

(** The data of a script run, as far as the chatbot reads it, and a series
    of button presses: two questions, a blank input, a clearing, and a
    quick action. *)
Definition demo_data : gmap str pyval :=
  {[u "oee" := PyFloat f99_9; u "defect_rate" := PyFloat (dyadic 5 (-2))]}.

Definition demo_events : list (event * gmap str pyval) :=
  [(PressQuick 0, demo_data);
   (PressSend (u "What is the OEE?"), demo_data);
   (PressSend (u "   "), demo_data);
   (PressClear, demo_data);
   (PressQuick 3, demo_data);
   (PressSend (u "banana sandwich"), demo_data)].

(** Three calls: with the data of a script run, without a context, and with
    an empty one. *)
Definition demo_calls : list (str * option (gmap str pyval)) :=
  [(u "what is the oee", Some demo_data); (u "banana", None); (u "any alarm?", Some ∅)].

(** A table whose first entry has no name. *)
Definition unnamed_table : kb :=
  [([], TopicInfo [u "oee"] (u "never shown"));
   (u "energy", TopicInfo kw_energy response_energy)].

(** * Properties *)

(** ** Substring search *)

Lemma starts_with_spec p s : starts_with p s = true <-> exists b, s = p ++ b.
Proof.
  revert s. induction p as [|a p IH]; intros s; simpl.
  - split; eauto.
  - destruct s as [|c s].
    + split; [discriminate|]. intros [b Hb]. discriminate.
    + rewrite andb_true_iff, N.eqb_eq, IH. split.
      * intros [-> [b ->]]. eauto.
      * intros [b Hb]. injection Hb as -> ->. eauto.
Qed.

(** [contains s p] holds exactly when [p] is a contiguous part of [s]. *)
Lemma contains_spec s p : contains s p = true <-> exists a b, s = a ++ p ++ b.
Proof.
  induction s as [|c s IH]; simpl.
  - rewrite orb_false_r, starts_with_spec. split.
    + intros [b Hb]. exists [], b. done.
    + intros [a [b Hab]]. destruct a; [|discriminate]. eauto.
  - rewrite orb_true_iff, starts_with_spec, IH. split.
    + intros [[b Hb]|[a [b Hab]]].
      * exists [], b. done.
      * exists (c :: a), b. by rewrite Hab.
    + intros [a [b Hab]]. destruct a as [|c' a].
      * left. eauto.
      * right. injection Hab as _ ->. eauto.
Qed.

(** ** The keyword scan *)

(** An entry matches when one of its keywords is a contiguous part of the
    query. *)
Lemma topic_matches_spec q item :
  topic_matches q item = true <->
  exists kw a b, kw ∈ keywords item.2 /\ q = a ++ kw ++ b.
Proof.
  unfold topic_matches. rewrite existsb_exists. split.
  - intros (kw & Hkw%list_elem_of_In & (a & b & Hq)%contains_spec). eauto.
  - intros (kw & a & b & Hkw%list_elem_of_In & Hq).
    exists kw. split; [done|]. apply contains_spec. eauto.
Qed.

Lemma match_keywords_spec topic kws q m :
  match_keywords topic kws q m = if existsb (contains q) kws then Some topic else m.
Proof.
  induction kws as [|kw kws IH]; simpl; [done|].
  destruct (contains q kw); simpl; done.
Qed.

(** The loops agree with [first_match] on any table without an empty key:
    an empty topic name would be assigned and then read as false. *)
Lemma match_topics_first_match items q :
  Forall (fun item : str * topic_info => item.1 <> []) items ->
  match_topics items q None = first_match items q.
Proof.
  unfold first_match. induction 1 as [|[topic info] items Hkey _ IH]; simpl; [done|].
  rewrite match_keywords_spec. unfold topic_matches at 1. simpl.
  destruct (existsb (contains q) (keywords info)); simpl.
  - destruct topic; [done|]. done.
  - apply IH.
Qed.

Lemma init_keys_nonempty :
  Forall (fun item : str * topic_info => item.1 <> []) init_knowledge_base.
Proof. repeat constructor; discriminate. Qed.

Lemma first_match_app_r pre item post q :
  Forall (fun it => topic_matches q it = false) pre ->
  topic_matches q item = true ->
  first_match (pre ++ item :: post) q = Some item.1.
Proof.
  unfold first_match. induction 1 as [|it pre Hit _ IH]; simpl; intros Hm.
  - by rewrite Hm.
  - rewrite Hit. by apply IH.
Qed.

Lemma first_match_none items q :
  first_match items q = None <-> Forall (fun it => topic_matches q it = false) items.
Proof.
  unfold first_match. induction items as [|it items IH]; simpl.
  - split; [constructor|done].
  - destruct (topic_matches q it) eqn:Hit; simpl.
    + split; [done|]. inversion 1; congruence.
    + rewrite IH. split; [by constructor|]. by inversion 1.
Qed.

Section Responder.
Context {ops : StrOps} {W : Type} {world : World W}.

Lemma get_response_eq self q d w :
  get_response self q d w =
  log_turn (in_force self d) q
    (match classify (in_force self d) q with
     | Some (c :: t) => _generate_response (in_force self d) (c :: t) w
     | _ => default_response (in_force self d) q w
     end).
Proof.
  assert (Hlog : forall self' (r : result str * W),
    match r with
    | (Raise e, w) => (Raise e, self', w)
    | (Ok response, w) =>
        let '(now, w) := now_hms w in
        (Ok response, append_turn self' (Turn now q response), w)
    end = log_turn self' q r).
  { intros self' [[s|e] w']; simpl; [destruct (now_hms w')|]; done. }
  unfold get_response. rewrite Hlog.
  assert (Hself :
    match d with
    | Some m => if truthy_data d then update_context self m else self
    | None => self
    end = in_force self d).
  { destruct d as [m|]; simpl; [|done].
    destruct (decide (m = ∅)) as [->|Hm].
    - by rewrite bool_decide_eq_false_2 by (intros H; by apply H).
    - by rewrite bool_decide_eq_true_2. }
  rewrite Hself. by destruct (classify _ q) as [[|c t]|].
Qed.

Lemma in_force_bot ctx hist d :
  in_force (bot ctx hist) d =
  bot (match d with Some m => if decide (m = ∅) then ctx else m | None => ctx end) hist.
Proof. destruct d as [m|]; simpl; [destruct (decide _)|]; done. Qed.

Lemma classify_bot ctx hist q :
  classify (bot ctx hist) q = first_match init_knowledge_base (str_strip (str_lower q)).
Proof. apply match_topics_first_match, init_keys_nonempty. Qed.

(** C1: the scan of [get_response] returns the first topic of the table, in
    declaration order, one of whose keywords occurs in the lower-cased,
    stripped query; whatever later topics match, an earlier matching topic is
    the one chosen. *)
Theorem classify_first_match ctx hist user_query :
  let query_lower := str_strip (str_lower user_query) in
  classify (bot ctx hist) user_query = first_match init_knowledge_base query_lower /\
  forall pre item post,
    init_knowledge_base = pre ++ item :: post ->
    Forall (fun it => topic_matches query_lower it = false) pre ->
    topic_matches query_lower item = true ->
    classify (bot ctx hist) user_query = Some item.1.
Proof.
  intros q. split; [apply classify_bot|].
  intros pre item post Hkb Hpre Hitem.
  rewrite classify_bot, Hkb. by apply first_match_app_r.
Qed.

(** C8: a query whose lower-cased, stripped form contains [oee] is classified
    to the OEE topic; that topic is declared first, so no earlier topic can
    take the query. *)
Theorem oee_query_classified ctx hist user_query :
  contains (str_strip (str_lower user_query)) (u "oee") = true ->
  classify (bot ctx hist) user_query = Some (u "oee").
Proof.
  intros Hoee. rewrite classify_bot.
  apply (first_match_app_r [] (u "oee", TopicInfo kw_oee response_oee)); [constructor|].
  unfold topic_matches. simpl. by rewrite Hoee.
Qed.

(** No call changes the tables installed by [__init__]. *)
Lemma in_force_tables self d :
  knowledge_base (in_force self d) = knowledge_base self /\
  default_responses (in_force self d) = default_responses self /\
  conversation_history (in_force self d) = conversation_history self.
Proof. destruct d as [m|]; simpl; [destruct (decide _)|]; done. Qed.

Lemma get_response_knowledge_base self q d w :
  knowledge_base (get_response self q d w).1.2 = knowledge_base self.
Proof.
  rewrite get_response_eq. unfold log_turn.
  destruct (match classify _ q with Some (c :: t) => _ | _ => _ end) as [[s|e] w'];
    simpl; apply in_force_tables.
Qed.

Lemma run_knowledge_base calls self w :
  knowledge_base (run calls self w).1 = knowledge_base self.
Proof.
  revert self w. induction calls as [|c calls IH]; intros self w; simpl; [done|].
  destruct (step c self w) as [self' w'] eqn:Hstep. rewrite IH.
  destruct c; simpl in Hstep.
  - by injection Hstep as <- _.
  - pose proof (get_response_knowledge_base self user_query dashboard_data w) as Hkb.
    destruct (get_response self user_query dashboard_data w) as [[r self''] w''].
    by injection Hstep as <- _.
  - by injection Hstep as <- _.
  - by injection Hstep as <- _.
Qed.

Lemma classify_run calls w q :
  classify (run calls init w).1 q =
  first_match init_knowledge_base (str_strip (str_lower q)).
Proof.
  unfold classify. rewrite run_knowledge_base.
  apply match_topics_first_match, init_keys_nonempty.
Qed.

(** C7: after any session of calls on a fresh chatbot, with any contexts and
    any outcomes of the random draws, the topic chosen for a query is
    determined by the lower-cased, stripped query alone: two queries with the
    same normal form are classified alike, whatever was asked before. *)
Theorem classification_deterministic calls1 calls2 w1 w2 q1 q2 :
  str_strip (str_lower q1) = str_strip (str_lower q2) ->
  classify (run calls1 init w1).1 q1 = classify (run calls2 init w2).1 q2.
Proof. intros Hq. by rewrite !classify_run, Hq. Qed.

(** ** The conversation log *)

Lemma get_response_log self q d w :
  asked_and_answered <$> conversation_history (get_response self q d w).1.2 =
  (asked_and_answered <$> conversation_history self) ++ logged q (get_response self q d w).1.1.
Proof.
  rewrite get_response_eq. unfold log_turn.
  destruct (match classify _ q with Some (c :: t) => _ | _ => _ end) as [[s|e] w'];
    simpl; destruct (in_force_tables self d) as (_ & _ & ->).
  - by rewrite fmap_app.
  - by rewrite app_nil_r.
Qed.

Lemma respond_all_log calls self w :
  asked_and_answered <$> conversation_history (respond_all calls self w).1.2 =
  (asked_and_answered <$> conversation_history self) ++
  concat (zip_with logged calls.*1 (respond_all calls self w).1.1).
Proof.
  revert self w. induction calls as [|[q d] calls IH]; intros self w; simpl.
  - by rewrite app_nil_r.
  - pose proof (get_response_log self q d w) as Hlog.
    destruct (get_response self q d w) as [[r self'] w']. simpl in Hlog.
    specialize (IH self' w').
    destruct (respond_all calls self' w') as [[rs self''] w'']. simpl in *.
    by rewrite IH, Hlog, <- app_assoc.
Qed.

Lemma respond_all_length calls self w :
  length (respond_all calls self w).1.1 = length calls.
Proof.
  revert self w. induction calls as [|[q d] calls IH]; intros self w; simpl; [done|].
  destruct (get_response self q d w) as [[r self'] w'].
  specialize (IH self' w').
  destruct (respond_all calls self' w') as [[rs self''] w'']. simpl in *. by f_equal.
Qed.

(** ** The keyword arguments of each topic *)

Notation "x <- c ;; k" := (bind c (fun x => k))
  (at level 100, c at next level, right associativity).

Lemma bind_ok {A B} (c : R (W:=W) A) (k : A -> R (W:=W) B) w a w' :
  c w = (Ok a, w') -> bind c k w = k a w'.
Proof. unfold bind. by intros ->. Qed.

Lemma random_uniform_ok a b w :
  float_le a b ->
  exists x w', random_uniform a b w = (Ok (PyFloat x), w') /\
               uniform a b w = (x, w') /\ float_le a x /\ float_le x b.
Proof.
  intros Hab. pose proof (uniform_range a b w Hab) as Hx.
  unfold random_uniform, bind, draw, ret.
  destruct (uniform a b w) as [x w']. simpl in Hx. eauto.
Qed.

Lemma random_randint_ok a b w :
  (a <= b)%Z ->
  exists z w', random_randint a b w = (Ok (PyInt z), w') /\ (a <= z <= b)%Z.
Proof.
  intros Hab. pose proof (randint_range a b w Hab) as Hz.
  unfold random_randint, bind, draw, ret.
  destruct (randint a b w) as [z w']. simpl in Hz. eauto.
Qed.

(** [random.choice] returns the element at the drawn index and never raises
    on a list that is not empty. *)
Lemma choice_ok {A} (seq : list A) w :
  seq <> [] ->
  exists x, seq !! (randbelow (length seq) w).1 = Some x /\
            choice seq w = (Ok x, (randbelow (length seq) w).2).
Proof.
  intros Hseq. destruct seq as [|a seq]; [done|].
  pose proof (randbelow_range (length (a :: seq)) w ltac:(simpl; lia)) as Hi.
  unfold choice, bind, draw, ret.
  destruct (randbelow (length (a :: seq)) w) as [i w']. simpl in Hi |- *.
  destruct (lookup_lt_is_Some_2 (a :: seq) i Hi) as [x Hx].
  exists x. by rewrite Hx.
Qed.

Ltac closed_range := first [ lia | by vm_compute ].

(** One draw of an arguments computation: name its value, keep its range. *)
Ltac draw_step :=
  lazymatch goal with
  | |- context [bind (random_uniform ?a ?b) ?k ?w] =>
      let x := fresh "x" in let w' := fresh "w" in
      let E := fresh "E" in let Hlo := fresh "Hlo" in let Hhi := fresh "Hhi" in
      destruct (random_uniform_ok a b w ltac:(closed_range)) as (x & w' & E & _ & Hlo & Hhi);
      rewrite (bind_ok _ k w _ w' E); clear E; cbv beta
  | |- context [bind (random_randint ?a ?b) ?k ?w] =>
      let z := fresh "z" in let w' := fresh "w" in
      let E := fresh "E" in let Hz := fresh "Hz" in
      destruct (random_randint_ok a b w ltac:(closed_range)) as (z & w' & E & Hz);
      rewrite (bind_ok _ k w _ w' E); clear E; cbv beta
  | |- context [bind (choice ?l) ?k ?w] =>
      let s := fresh "s" in let E := fresh "E" in
      destruct (choice_ok l w ltac:(discriminate)) as (s & _ & E);
      rewrite (bind_ok _ k w _ _ E); clear E; cbv beta
  end.

Ltac args_typed :=
  intros; repeat draw_step;
  eexists _, _; split; [reflexivity|];
  repeat (constructor;
          [split; [reflexivity|first [exact I | assumption | by split]]|]);
  try constructor.

Lemma maintenance_args_typed (w : W) :
  exists kw w', maintenance_args w = (Ok kw, w') /\ typed kw maintenance_sig.
Proof. unfold maintenance_args. args_typed. Qed.

Lemma energy_args_typed (w : W) :
  exists kw w', energy_args w = (Ok kw, w') /\ typed kw energy_sig.
Proof. unfold energy_args. args_typed. Qed.

Lemma quality_args_typed (w : W) :
  exists kw w', quality_args w = (Ok kw, w') /\ typed kw quality_sig.
Proof. unfold quality_args. args_typed. Qed.

Lemma production_args_typed (w : W) :
  exists kw w', production_args w = (Ok kw, w') /\ typed kw production_sig.
Proof. unfold production_args. args_typed. Qed.

Lemma alert_args_typed (w : W) :
  exists kw w', alert_args w = (Ok kw, w') /\ typed kw alert_sig.
Proof. unfold alert_args. args_typed. Qed.

Lemma anomaly_args_typed (w : W) :
  exists kw w', anomaly_args w = (Ok kw, w') /\ typed kw anomaly_sig.
Proof. unfold anomaly_args. args_typed. Qed.

Lemma summary_args_typed (w : W) :
  exists kw w', summary_args w = (Ok kw, w') /\ typed kw summary_sig.
Proof. unfold summary_args. args_typed. Qed.

Lemma optimize_args_typed (w : W) :
  exists kw w', optimize_args w = (Ok kw, w') /\ typed kw optimize_sig.
Proof. unfold optimize_args. args_typed. Qed.

(** The OEE arguments: the [oee] entry is the context's value when the key
    is present and the draw from [78, 92] otherwise; the draw is made either
    way, so the other entries and the world do not depend on the context. *)
Lemma oee_args_typed (w : W) :
  exists x rest w',
    uniform (of_int 78) (of_int 92) w = (x, w'.1) /\
    float_le (of_int 78) x /\ float_le x (of_int 92) /\
    typed rest oee_rest_sig /\
    forall self',
      oee_args self' w =
      (Ok ((u "oee", default (PyFloat x) (context self' !! u "oee")) :: rest), w'.2).
Proof.
  destruct (random_uniform_ok (of_int 78) (of_int 92) w ltac:(closed_range))
    as (x & w1 & E & Eu & Hlo & Hhi).
  assert (Hrest : exists rest w2, typed rest oee_rest_sig /\ forall oee,
    (availability <- random_uniform (of_int 88) (of_int 96) ;;
     performance <- random_uniform (of_int 85) (of_int 95) ;;
     quality <- random_uniform (of_int 95) (dyadic 199 (-1)) ;;
     recommendation <- choice oee_recommendations ;;
     ret [(u "oee", oee); (u "availability", availability);
          (u "performance", performance); (u "quality", quality);
          (u "recommendation", PyStr recommendation)]) w1 =
    (Ok ((u "oee", oee) :: rest), w2)).
  { destruct (random_uniform_ok (of_int 88) (of_int 96) w1 ltac:(closed_range))
      as (a & wa & Ea & _ & Ha).
    destruct (random_uniform_ok (of_int 85) (of_int 95) wa ltac:(closed_range))
      as (p & wp & Ep & _ & Hp).
    destruct (random_uniform_ok (of_int 95) (dyadic 199 (-1)) wp ltac:(closed_range))
      as (q & wq & Eq & _ & Hq).
    destruct (choice_ok oee_recommendations wq ltac:(discriminate)) as (s & _ & Es).
    eexists _, _. split; [|intros oee].
    2:{ rewrite (bind_ok _ _ _ _ _ Ea). cbv beta.
        rewrite (bind_ok _ _ _ _ _ Ep). cbv beta.
        rewrite (bind_ok _ _ _ _ _ Eq). cbv beta.
        rewrite (bind_ok _ _ _ _ _ Es). reflexivity. }
    repeat (constructor;
            [split; [reflexivity|first [exact I | assumption | by split]]|]).
    constructor. }
  destruct Hrest as (rest & w2 & Hty & Hrest).
  exists x, rest, (w1, w2). simpl. repeat (split; [done|]).
  intros self'. unfold oee_args. rewrite (bind_ok _ _ _ _ _ E). cbv beta.
  rewrite <- Hrest. reflexivity.
Qed.

(** ** Templates against signatures *)

Lemma kwarg_typed kw sig n :
  typed kw sig ->
  match sig_lookup n sig with
  | Some s => exists v, kwarg n kw = Some v /\ has_sort v s
  | None => kwarg n kw = None
  end.
Proof.
  induction 1 as [|[k v] [k' s] kw sig [Hk Hv] _ IH]; simpl in *; [done|].
  subst k'. destruct (decide (k = n)); eauto.
Qed.

Lemma format_value_sorted sp v s :
  has_sort v s -> sort_fits sp s = true -> exists t, format_value sp v = Ok t.
Proof.
  destruct sp as [g p f], s as [lo hi|lo hi| |], v; simpl; try done; intros Hv Hfit.
  - rewrite Hfit. eauto.
  - apply andb_true_iff in Hfit as [->%negb_true_iff Hp]. destruct p; [done|]. eauto.
  - apply andb_true_iff in Hfit as [->%negb_true_iff ->%negb_true_iff].
    simpl. destruct p; eauto.
  - rewrite Hfit. eauto.
  - rewrite Hfit. destruct (int_to_float z); [|done]. simpl. eauto.
  - rewrite Hfit.
    assert (exists x, int_to_float (if b then 1 else 0)%Z = Ok x) as [x ->]
      by (destruct b; vm_compute; eauto).
    simpl. eauto.
Qed.

(** A template that checks against the signature of its arguments renders. *)
Lemma fill_typed kw sig segs :
  typed kw sig -> forallb (field_checks sig) segs = true ->
  exists t, fill kw segs = Ok t.
Proof.
  intros Hkw. induction segs as [|[l|n sp] segs IH]; simpl; intros Hck.
  - eauto.
  - destruct (IH Hck) as [t ->]. simpl. eauto.
  - apply andb_true_iff in Hck as [[Hpos Hfld]%andb_true_iff Hck].
    apply negb_true_iff in Hpos. rewrite Hpos.
    pose proof (kwarg_typed kw sig n Hkw) as Hn.
    destruct (sig_lookup n sig) as [s|]; [|done].
    destruct Hn as (v & -> & Hv).
    destruct (parse_spec sp) as [fs|]; [|done]. simpl.
    destruct (format_value_sorted fs v s Hv Hfld) as [t ->]. simpl.
    destruct (IH Hck) as [t' ->]. simpl. eauto.
Qed.

Lemma format_typed t kw sig :
  typed kw sig -> template_checks sig t = true -> exists s, format t kw = Ok s.
Proof.
  unfold template_checks, format. intros Hkw Hck.
  destruct (parse_template t) as [segs|]; [|done]. simpl. eauto using fill_typed.
Qed.

(** ** The renderer *)

Lemma generate_response_eq self topic info args (w : W) :
  kb_item (knowledge_base self) topic = Ok info ->
  topic_args self topic = Some args ->
  _generate_response self topic w =
  match args w with
  | (Ok kw, w') => (format (response info) kw, w')
  | (Raise e, w') => (Raise e, w')
  end.
Proof.
  intros Hitem Hargs. unfold _generate_response, bind, liftr.
  rewrite Hitem, Hargs. by destruct (args w) as [[kw|e] w'].
Qed.

(** A topic whose arguments always have signature [sig], and whose template
    checks against it, always renders. *)
Lemma generate_response_typed self topic info args sig (w : W) :
  kb_item (knowledge_base self) topic = Ok info ->
  topic_args self topic = Some args ->
  (exists kw w', args w = (Ok kw, w') /\ typed kw sig) ->
  template_checks sig (response info) = true ->
  exists s w', _generate_response self topic w = (Ok s, w').
Proof.
  intros Hitem Hargs (kw & w' & Hkw & Hty) Hck.
  rewrite (generate_response_eq _ _ _ _ _ Hitem Hargs), Hkw.
  destruct (format_typed _ _ _ Hty Hck) as [s ->]. eauto.
Qed.

Lemma generate_help ctx hist (w : W) :
  _generate_response (bot ctx hist) (u "help") w = (Ok response_help, w).
Proof. reflexivity. Qed.

Lemma get_response_matched self q d (w : W) topic :
  classify (in_force self d) q = Some topic -> topic <> [] ->
  get_response self q d w =
  log_turn (in_force self d) q (_generate_response (in_force self d) topic w).
Proof. intros Hc Hne. rewrite get_response_eq, Hc. by destruct topic. Qed.

Lemma get_response_unmatched self q d (w : W) :
  classify (in_force self d) q = None ->
  get_response self q d w =
  log_turn (in_force self d) q (default_response (in_force self d) q w).
Proof. intros Hc. by rewrite get_response_eq, Hc. Qed.

Lemma classify_in_force ctx hist d q :
  classify (in_force (bot ctx hist) d) q = classify (bot ctx hist) q.
Proof. by rewrite in_force_bot, !classify_bot. Qed.

Lemma log_turn_result self q (r : result str * W) : (log_turn self q r).1.1 = r.1.
Proof. by destruct r as [[s|e] w]. Qed.

(** C9: a query classified to the help topic is answered with the help
    template itself, whatever the context, the log and the world. *)
Theorem help_is_static ctx hist q d (w : W) :
  classify (bot ctx hist) q = Some (u "help") ->
  (get_response (bot ctx hist) q d w).1.1 = Ok response_help.
Proof.
  intros Hc.
  rewrite (get_response_matched _ _ _ _ (u "help"));
    [|by rewrite classify_in_force|discriminate].
  by rewrite log_turn_result, in_force_bot, generate_help.
Qed.

(** ** The fallback *)

Lemma format_default t v :
  t ∈ init_default_responses ->
  format t [(u "query", PyStr v)] = Ok (substitute (u "{query}") v t).
Proof.
  unfold init_default_responses. rewrite !elem_of_cons, elem_of_nil.
  intros [->|[->|[->|[]]]]; vm_compute; reflexivity.
Qed.

Lemma unmatched_query q :
  (forall topic info kw,
     (topic, info) ∈ init_knowledge_base -> kw ∈ keywords info ->
     contains q kw = false) ->
  first_match init_knowledge_base q = None.
Proof.
  intros Hnone. apply first_match_none, Forall_forall. intros [topic info] Hin.
  unfold topic_matches. simpl.
  destruct (existsb (contains q) (keywords info)) eqn:Hex; [|done].
  apply existsb_exists in Hex as (kw & Hkw%list_elem_of_In & Hc).
  by rewrite (Hnone topic info kw) in Hc.
Qed.

(** C4: a query with none of the keywords of any topic is answered with the
    fallback template at the index drawn by [random.choice] from the pool of
    three, its placeholder replaced by the first 50 characters of the query
    as typed; the call returns. *)
Theorem fallback_coverage ctx hist q d (w : W) :
  (forall topic info kw,
     (topic, info) ∈ init_knowledge_base -> kw ∈ keywords info ->
     contains (str_strip (str_lower q)) kw = false) ->
  exists t,
    init_default_responses !! (randbelow 3 w).1 = Some t /\
    (get_response (bot ctx hist) q d w).1.1 =
      Ok (substitute (u "{query}") (take 50 q) t).
Proof.
  intros Hnone.
  rewrite get_response_unmatched
    by (rewrite classify_in_force, classify_bot; by apply unmatched_query).
  rewrite log_turn_result, in_force_bot.
  destruct (choice_ok init_default_responses w ltac:(discriminate)) as (t & Ht & Hch).
  exists t. split; [done|].
  unfold default_response. simpl default_responses.
  rewrite (bind_ok _ _ _ _ _ Hch). unfold liftr. simpl.
  apply format_default. by eapply list_elem_of_lookup_2.
Qed.

(** ** Rendering never misses a placeholder *)

(** [format(v, '.1f')] returns on every numeric value.  When it raises, the
    value is not numeric, and unless the value is an object with a
    [__format__] of its own the exception is one of three. *)
Lemma format_oee_numeric v :
  numeric v -> returned (format_value oee_spec v).
Proof.
  destruct v as [x|z|b|s| |fmt]; simpl; try tauto.
  - by destruct (int_to_float z).
  - by destruct b.
Qed.

Lemma format_oee_value v :
  match format_value oee_spec v with
  | Ok _ => True
  | Raise e =>
      ~ numeric v /\
      ((forall fmt, v <> PyObject fmt) ->
       e = ValueError \/ e = TypeError \/ e = OverflowError)
  end.
Proof.
  destruct v as [x|z|b|s| |fmt]; simpl; try tauto.
  - destruct (int_to_float z) as [x|e] eqn:Hz; simpl; [done|].
    split; [tauto|]. intros _. unfold int_to_float in Hz.
    destruct (binary_normalize _ _ _ _ _); naive_solver.
  - by destruct b.
  - destruct (fmt oee_spec); [done|]. split; [tauto|]. intros Hfmt. by destruct (Hfmt fmt).
Qed.

Lemma fill_field kw n sp fs v segs :
  positional n = false -> kwarg n kw = Some v -> parse_spec sp = Ok fs ->
  fill kw (Field n sp :: segs) =
  rbind (format_value fs v) (fun s =>
  rbind (fill kw segs) (fun rest => Ok (s ++ rest))).
Proof. intros Hpos Hkw Hsp. simpl. by rewrite Hpos, Hkw, Hsp. Qed.

(** A keyword argument that no field names does not matter. *)
Lemma fill_irrelevant kw kw' segs :
  (forall n, n ∈ field_names segs -> kwarg n kw = kwarg n kw') ->
  fill kw segs = fill kw' segs.
Proof.
  induction segs as [|[l|n sp] segs IH]; intros Hsame; simpl; [done| |].
  - by rewrite IH.
  - rewrite (Hsame n) by (simpl; apply elem_of_cons; by left).
    rewrite IH; [done|]. intros n' Hn'. apply Hsame. simpl. apply elem_of_cons. by right.
Qed.

(** The OEE template names [oee] once, in its first field. *)
Lemma response_oee_segments :
  exists tail,
    parse_template response_oee =
      Ok (Lit (u "**Overall Equipment Effectiveness (OEE)** is currently at ")
          :: Field (u "oee") (u ".1f") :: tail) /\
    forallb (field_checks oee_sig) tail = true /\
    forallb (fun n => negb (bool_decide (n = u "oee"))) (field_names tail) = true.
Proof. eexists. repeat split; vm_compute; reflexivity. Qed.

(** The OEE template on its arguments: the text up to the OEE figure, the
    figure as [.1f] prints it, and the rest; it fails only when the figure
    cannot be printed. *)
Lemma format_oee v rest :
  typed rest oee_rest_sig ->
  match format_value oee_spec v with
  | Ok s =>
      exists r, format response_oee ((u "oee", v) :: rest) =
        Ok (u "**Overall Equipment Effectiveness (OEE)** is currently at " ++ s ++ r)
  | Raise e => format response_oee ((u "oee", v) :: rest) = Raise e
  end.
Proof.
  intros Hrest. destruct response_oee_segments as (tail & Hparse & Hck & Hone).
  unfold format, parse_template in *. rewrite Hparse.
  change (rbind (Ok ?x) ?k) with (k x). cbv beta.
  change (fill ?kw (Lit ?l :: ?r)) with (rbind (fill kw r) (fun rest => Ok (l ++ rest))).
  rewrite (fill_field _ _ _ oee_spec v) by (vm_compute; reflexivity).
  destruct (format_value oee_spec v) as [s|e]; simpl; [|done].
  rewrite (fill_irrelevant _ ((u "oee", PyBool true) :: rest)).
  - destruct (fill_typed ((u "oee", PyBool true) :: rest) oee_sig tail) as [r ->]; [|done|].
    + constructor; [by split|done].
    + simpl. eauto.
  - intros n Hn%list_elem_of_In. rewrite forallb_forall in Hone.
    specialize (Hone n Hn). apply negb_true_iff, bool_decide_eq_false in Hone.
    change (kwarg n ((u "oee", v) :: rest)) with
      (if decide (u "oee" = n) then Some v else kwarg n rest).
    change (kwarg n ((u "oee", PyBool true) :: rest)) with
      (if decide (u "oee" = n) then Some (PyBool true) else kwarg n rest).
    destruct (decide (u "oee" = n)) as [E|_]; [by destruct Hone|done].
Qed.

Lemma kb_item_init topic info :
  (topic, info) ∈ init_knowledge_base ->
  kb_item init_knowledge_base topic = Ok info.
Proof.
  unfold init_knowledge_base. rewrite !elem_of_cons, elem_of_nil.
  intros H. repeat (destruct H as [[= -> ->]|H]; [reflexivity|]). done.
Qed.

(** The outcome of rendering the OEE topic. *)
Lemma generate_oee (w : W) :
  exists x rest w',
    float_le (of_int 78) x /\ float_le x (of_int 92) /\ typed rest oee_rest_sig /\
    forall ctx' hist',
      _generate_response (bot ctx' hist') (u "oee") w =
      (format response_oee ((u "oee", default (PyFloat x) (ctx' !! u "oee")) :: rest), w').
Proof.
  destruct (oee_args_typed w) as (x & rest & w' & _ & Hlo & Hhi & Hrest & Hargs).
  exists x, rest, w'.2. repeat (split; [done|]). intros ctx' hist'.
  rewrite (generate_response_eq _ _ (TopicInfo kw_oee response_oee) (oee_args (bot ctx' hist')))
    by reflexivity.
  by rewrite Hargs.
Qed.

(** Rendering a topic of the table returns, unless the topic is OEE and the
    context holds under [oee] a value that [.1f] cannot print; the exception
    is then the one of that conversion, never a missing placeholder. *)
Lemma generate_response_cases ctx hist topic info (w : W) :
  (topic, info) ∈ init_knowledge_base ->
  match (_generate_response (bot ctx hist) topic w).1 with
  | Ok _ => True
  | Raise e =>
      topic = u "oee" /\
      exists v, ctx !! u "oee" = Some v /\ ~ numeric v /\
                format_value oee_spec v = Raise e /\
                ((forall fmt, v <> PyObject fmt) ->
                 e = ValueError \/ e = TypeError \/ e = OverflowError)
  end.
Proof.
  unfold init_knowledge_base. rewrite !elem_of_cons, elem_of_nil.
  intros [H|[H|[H|[H|[H|[H|[H|[H|[H|[H|[]]]]]]]]]]]; injection H as -> ->.
  - destruct (generate_oee w) as (x & rest & w' & Hlo & Hhi & Hrest & ->).
    simpl fst.
    pose proof (format_oee (default (PyFloat x) (ctx !! u "oee")) rest Hrest) as Hfmt.
    pose proof (format_oee_value (default (PyFloat x) (ctx !! u "oee"))) as Hval.
    destruct (format_value oee_spec _) as [s|e] eqn:Hs.
    + destruct Hfmt as [r ->]. done.
    + rewrite Hfmt. split; [done|].
      destruct (ctx !! u "oee") as [v|]; simpl in *; [|tauto].
      exists v. tauto.
  - destruct (generate_response_typed (bot ctx hist) (u "maintenance") _ _ _ w
      eq_refl eq_refl (maintenance_args_typed w)) as (s & w' & ->);
      [vm_compute; reflexivity|done].
  - destruct (generate_response_typed (bot ctx hist) (u "energy") _ _ _ w
      eq_refl eq_refl (energy_args_typed w)) as (s & w' & ->);
      [vm_compute; reflexivity|done].
  - destruct (generate_response_typed (bot ctx hist) (u "quality") _ _ _ w
      eq_refl eq_refl (quality_args_typed w)) as (s & w' & ->);
      [vm_compute; reflexivity|done].
  - destruct (generate_response_typed (bot ctx hist) (u "production") _ _ _ w
      eq_refl eq_refl (production_args_typed w)) as (s & w' & ->);
      [vm_compute; reflexivity|done].
  - destruct (generate_response_typed (bot ctx hist) (u "alert") _ _ _ w
      eq_refl eq_refl (alert_args_typed w)) as (s & w' & ->);
      [vm_compute; reflexivity|done].
  - destruct (generate_response_typed (bot ctx hist) (u "anomaly") _ _ _ w
      eq_refl eq_refl (anomaly_args_typed w)) as (s & w' & ->);
      [vm_compute; reflexivity|done].
  - by rewrite generate_help.
  - destruct (generate_response_typed (bot ctx hist) (u "summary") _ _ _ w
      eq_refl eq_refl (summary_args_typed w)) as (s & w' & ->);
      [vm_compute; reflexivity|done].
  - destruct (generate_response_typed (bot ctx hist) (u "optimize") _ _ _ w
      eq_refl eq_refl (optimize_args_typed w)) as (s & w' & ->);
      [vm_compute; reflexivity|done].
Qed.

Lemma first_match_elem items q topic :
  first_match items q = Some topic -> exists info, (topic, info) ∈ items.
Proof.
  unfold first_match. destruct (List.find _ items) as [[t info]|] eqn:Hfind; [|done].
  intros [= <-]. apply find_some in Hfind as [Hin%list_elem_of_In _]. eauto.
Qed.

(** Every state a session reaches from a fresh chatbot is a [bot]. *)
Lemma get_response_bot ctx hist q d (w : W) :
  exists hist',
    (get_response (bot ctx hist) q d w).1.2 = bot (context (in_force (bot ctx hist) d)) hist'.
Proof.
  rewrite get_response_eq, in_force_bot. unfold log_turn.
  destruct (match classify _ q with Some (c :: t) => _ | _ => _ end) as [[s|e] w'];
    simpl; eauto.
Qed.

Lemma run_bot calls ctx hist (w : W) :
  exists ctx' hist', (run calls (bot ctx hist) w).1 = bot ctx' hist'.
Proof.
  revert ctx hist w. induction calls as [|c calls IH]; intros ctx hist w; simpl; [eauto|].
  destruct c; simpl.
  - apply (IH data hist w).
  - destruct (get_response_bot ctx hist user_query dashboard_data w) as [hist' Hbot].
    destruct (get_response _ user_query dashboard_data w) as [[r self'] w'].
    simpl in Hbot. subst self'. apply IH.
  - apply IH.
  - apply (IH ctx [] w).
Qed.

Lemma get_response_cases ctx hist q d (w : W) :
  match (get_response (bot ctx hist) q d w).1.1 with
  | Ok _ => True
  | Raise e =>
      classify (bot ctx hist) q = Some (u "oee") /\
      ~ well_formed (context (in_force (bot ctx hist) d)) /\
      exists v,
        context (in_force (bot ctx hist) d) !! u "oee" = Some v /\
        format_value oee_spec v = Raise e /\
        ((forall fmt, v <> PyObject fmt) ->
         e = ValueError \/ e = TypeError \/ e = OverflowError)
  end.
Proof.
  destruct (classify (bot ctx hist) q) as [topic|] eqn:Hc.
  - pose proof Hc as Hfm. rewrite classify_bot in Hfm.
    destruct (first_match_elem _ _ _ Hfm) as [info Hin].
    assert (Hne : topic <> []).
    { intros ->. pose proof init_keys_nonempty as Hkeys.
      rewrite Forall_forall in Hkeys. by apply (Hkeys _ Hin). }
    rewrite (get_response_matched _ _ _ _ topic); [|by rewrite classify_in_force|done].
    rewrite log_turn_result, in_force_bot.
    pose proof (generate_response_cases
      (match d with Some m => if decide (m = ∅) then ctx else m | None => ctx end)
      hist topic info w Hin) as Hgen.
    destruct (_generate_response _ topic w).1 as [s|e]; [done|].
    destruct Hgen as (-> & v & Hv & Hnum & Hfmt & He).
    split; [done|]. split.
    + unfold well_formed. simpl. by rewrite Hv.
    + by exists v.
  - rewrite get_response_unmatched by (by rewrite classify_in_force).
    rewrite log_turn_result, in_force_bot.
    destruct (choice_ok init_default_responses w ltac:(discriminate)) as (t & Ht & Hch).
    unfold default_response. simpl default_responses.
    rewrite (bind_ok _ _ _ _ _ Hch). unfold liftr. simpl.
    by rewrite format_default by (by eapply list_elem_of_lookup_2).
Qed.

Lemma typed_keys kw sig : typed kw sig -> kw.*1 = sig.*1.
Proof.
  induction 1 as [|[k v] [k' s] kw sig [Hk _] _ IH]; [done|].
  rewrite !fmap_cons. simpl in Hk. by rewrite Hk, IH.
Qed.

Lemma supplied_by_spec sig t :
  supplied_by sig t = true -> placeholders t ⊆ sig.*1.
Proof.
  unfold supplied_by. rewrite forallb_forall.
  intros Hall n Hn%list_elem_of_In.
  specialize (Hall n Hn). by apply bool_decide_eq_true in Hall.
Qed.

(** The arguments of a branch name every placeholder of its template. *)
Lemma args_supply_placeholders ctx hist topic info args (w : W) kw w' :
  (topic, info) ∈ init_knowledge_base ->
  topic_args (bot ctx hist) topic = Some args ->
  args w = (Ok kw, w') ->
  placeholders (response info) ⊆ kw.*1.
Proof.
  unfold init_knowledge_base. rewrite !elem_of_cons, elem_of_nil.
  intros [H|[H|[H|[H|[H|[H|[H|[H|[H|[H|[]]]]]]]]]]]; injection H as -> ->;
    intros Hargs Hkw; try discriminate Hargs.
  - change (Some (oee_args (bot ctx hist)) = Some args) in Hargs.
    injection Hargs as <-.
    destruct (oee_args_typed w) as (x & rest & w0 & _ & _ & _ & Hrest & Hall).
    rewrite Hall in Hkw. injection Hkw as <- _.
    rewrite fmap_cons, (typed_keys _ _ Hrest).
    apply (supplied_by_spec oee_sig). vm_compute. reflexivity.
  - change (Some maintenance_args = Some args) in Hargs. injection Hargs as <-.
    destruct (maintenance_args_typed w) as (kw0 & w0 & E & Hty).
    rewrite E in Hkw. injection Hkw as <- _. rewrite (typed_keys _ _ Hty).
    apply supplied_by_spec. vm_compute. reflexivity.
  - change (Some energy_args = Some args) in Hargs. injection Hargs as <-.
    destruct (energy_args_typed w) as (kw0 & w0 & E & Hty).
    rewrite E in Hkw. injection Hkw as <- _. rewrite (typed_keys _ _ Hty).
    apply supplied_by_spec. vm_compute. reflexivity.
  - change (Some quality_args = Some args) in Hargs. injection Hargs as <-.
    destruct (quality_args_typed w) as (kw0 & w0 & E & Hty).
    rewrite E in Hkw. injection Hkw as <- _. rewrite (typed_keys _ _ Hty).
    apply supplied_by_spec. vm_compute. reflexivity.
  - change (Some production_args = Some args) in Hargs. injection Hargs as <-.
    destruct (production_args_typed w) as (kw0 & w0 & E & Hty).
    rewrite E in Hkw. injection Hkw as <- _. rewrite (typed_keys _ _ Hty).
    apply supplied_by_spec. vm_compute. reflexivity.
  - change (Some alert_args = Some args) in Hargs. injection Hargs as <-.
    destruct (alert_args_typed w) as (kw0 & w0 & E & Hty).
    rewrite E in Hkw. injection Hkw as <- _. rewrite (typed_keys _ _ Hty).
    apply supplied_by_spec. vm_compute. reflexivity.
  - change (Some anomaly_args = Some args) in Hargs. injection Hargs as <-.
    destruct (anomaly_args_typed w) as (kw0 & w0 & E & Hty).
    rewrite E in Hkw. injection Hkw as <- _. rewrite (typed_keys _ _ Hty).
    apply supplied_by_spec. vm_compute. reflexivity.
  - change (Some summary_args = Some args) in Hargs. injection Hargs as <-.
    destruct (summary_args_typed w) as (kw0 & w0 & E & Hty).
    rewrite E in Hkw. injection Hkw as <- _. rewrite (typed_keys _ _ Hty).
    apply supplied_by_spec. vm_compute. reflexivity.
  - change (Some optimize_args = Some args) in Hargs. injection Hargs as <-.
    destruct (optimize_args_typed w) as (kw0 & w0 & E & Hty).
    rewrite E in Hkw. injection Hkw as <- _. rewrite (typed_keys _ _ Hty).
    apply supplied_by_spec. vm_compute. reflexivity.
Qed.

(** Every topic of the table but [help] builds keyword arguments, in every
    world. *)
Lemma topic_args_return ctx hist topic info (w : W) :
  (topic, info) ∈ init_knowledge_base -> topic <> u "help" ->
  exists args kw w',
    topic_args (bot ctx hist) topic = Some args /\ args w = (Ok kw, w').
Proof.
  unfold init_knowledge_base. rewrite !elem_of_cons, elem_of_nil.
  intros [H|[H|[H|[H|[H|[H|[H|[H|[H|[H|[]]]]]]]]]]]; injection H as -> ->; intros Hne.
  - destruct (oee_args_typed w) as (x & rest & w0 & _ & _ & _ & _ & Hall).
    exists (oee_args (bot ctx hist)). eexists _, _. split; [reflexivity|apply Hall].
  - destruct (maintenance_args_typed w) as (kw & w' & E & _).
    exists maintenance_args, kw, w'. split; [reflexivity|exact E].
  - destruct (energy_args_typed w) as (kw & w' & E & _).
    exists energy_args, kw, w'. split; [reflexivity|exact E].
  - destruct (quality_args_typed w) as (kw & w' & E & _).
    exists quality_args, kw, w'. split; [reflexivity|exact E].
  - destruct (production_args_typed w) as (kw & w' & E & _).
    exists production_args, kw, w'. split; [reflexivity|exact E].
  - destruct (alert_args_typed w) as (kw & w' & E & _).
    exists alert_args, kw, w'. split; [reflexivity|exact E].
  - destruct (anomaly_args_typed w) as (kw & w' & E & _).
    exists anomaly_args, kw, w'. split; [reflexivity|exact E].
  - by destruct Hne.
  - destruct (summary_args_typed w) as (kw & w' & E & _).
    exists summary_args, kw, w'. split; [reflexivity|exact E].
  - destruct (optimize_args_typed w) as (kw & w' & E & _).
    exists optimize_args, kw, w'. split; [reflexivity|exact E].
Qed.

(** Every template of the table is a format string that [str.format]
    accepts. *)
Lemma templates_parse topic info :
  (topic, info) ∈ init_knowledge_base -> returned (parse_template (response info)).
Proof.
  unfold init_knowledge_base. rewrite !elem_of_cons, elem_of_nil.
  intros H. repeat (destruct H as [[= -> ->]|H]; [vm_compute; exact I|]). done.
Qed.

(** C6: for every topic of the table and every context, the template is a
    format string; the help template names no placeholder and is returned
    as it is; every other topic builds keyword arguments in every world,
    they name every placeholder of the template, and the answer is the
    template formatted with them.  Rendering fails only in the conversion
    of the context's [oee] value by [.1f], with the exception of that
    conversion, which for the values of the built-in types is never that
    of a missing placeholder.  A call of [get_response] fails only so, and
    on a well-formed context it returns.  The other operations are total
    functions. *)
Theorem render_total ctx hist :
  (forall topic info (w : W),
     (topic, info) ∈ init_knowledge_base ->
     returned (parse_template (response info)) /\
     ((topic = u "help" /\
       placeholders (response info) = [] /\
       _generate_response (bot ctx hist) topic w = (Ok (response info), w)) \/
      (topic <> u "help" /\
       exists args kw w',
         topic_args (bot ctx hist) topic = Some args /\
         args w = (Ok kw, w') /\
         placeholders (response info) ⊆ kw.*1 /\
         _generate_response (bot ctx hist) topic w = (format (response info) kw, w')))) /\
  (forall topic info (w : W) e,
     (topic, info) ∈ init_knowledge_base ->
     (_generate_response (bot ctx hist) topic w).1 = Raise e ->
     topic = u "oee" /\
     exists v,
       ctx !! u "oee" = Some v /\ ~ numeric v /\
       format_value oee_spec v = Raise e /\
       ((forall fmt, v <> PyObject fmt) ->
        e = ValueError \/ e = TypeError \/ e = OverflowError)) /\
  (forall q d (w : W) e,
     (get_response (bot ctx hist) q d w).1.1 = Raise e ->
     classify (bot ctx hist) q = Some (u "oee") /\
     ~ well_formed (context (in_force (bot ctx hist) d)) /\
     exists v,
       context (in_force (bot ctx hist) d) !! u "oee" = Some v /\
       format_value oee_spec v = Raise e /\
       ((forall fmt, v <> PyObject fmt) ->
        e = ValueError \/ e = TypeError \/ e = OverflowError)) /\
  (forall q d (w : W),
     well_formed (context (in_force (bot ctx hist) d)) ->
     returned (get_response (bot ctx hist) q d w).1.1).
Proof.
  split; [|split; [|split]].
  - intros topic info w Hin. split; [by apply (templates_parse topic)|].
    destruct (decide (topic = u "help")) as [->|Hne].
    + left. pose proof (kb_item_init _ _ Hin) as Hitem.
      change (Ok (TopicInfo kw_help response_help) = Ok info) in Hitem.
      injection Hitem as <-. split; [done|]. split; [vm_compute; reflexivity|].
      apply generate_help.
    + right. split; [done|].
      destruct (topic_args_return ctx hist topic info w Hin Hne)
        as (args & kw & w' & Hargs & Hkw).
      exists args, kw, w'. split; [done|]. split; [done|]. split.
      * by apply (args_supply_placeholders ctx hist topic info args w kw w').
      * rewrite (generate_response_eq _ _ info args); [by rewrite Hkw| |done].
        by apply kb_item_init.
  - intros topic info w e Hin Hraise.
    pose proof (generate_response_cases ctx hist topic info w Hin) as Hgen.
    by rewrite Hraise in Hgen.
  - intros q d w e Hraise.
    pose proof (get_response_cases ctx hist q d w) as Hres. by rewrite Hraise in Hres.
  - intros q d w Hwf.
    pose proof (get_response_cases ctx hist q d w) as Hres.
    destruct (get_response (bot ctx hist) q d w).1.1; [done|]. tauto.
Qed.

(** ** The conversation log, for well-formed calls *)

(** On a well-formed context a call returns and appends its turn. *)
Lemma get_response_returns ctx hist q d (w : W) :
  well_formed (context (in_force (bot ctx hist) d)) ->
  exists s now w',
    get_response (bot ctx hist) q d w =
    (Ok s, bot (context (in_force (bot ctx hist) d)) (hist ++ [Turn now q s]), w').
Proof.
  intros Hwf. pose proof (get_response_cases ctx hist q d w) as Hres.
  rewrite get_response_eq in *. rewrite in_force_bot in *.
  destruct (match classify _ q with Some (c :: t) => _ | _ => _ end) as [[s|e] w1];
    simpl in *; [eauto|tauto].
Qed.

Lemma in_force_well_formed ctx hist data :
  well_formed ctx -> well_formed data ->
  well_formed (context (in_force (bot ctx hist) (Some data))).
Proof. intros Hctx Hdata. simpl. by destruct (decide (data = ∅)). Qed.

Lemma in_force_well_formed_call ctx hist d :
  well_formed ctx -> well_formed_call d ->
  well_formed (context (in_force (bot ctx hist) d)).
Proof. destruct d as [data|]; [apply in_force_well_formed|done]. Qed.

Lemma logged_all_ok qs texts :
  concat (zip_with logged qs (Ok <$> texts)) = zip qs texts.
Proof.
  revert texts. induction qs as [|q qs IH]; intros [|t texts]; simpl; [done..|].
  by rewrite IH.
Qed.

(** Well-formed calls on a well-formed context all return. *)
Lemma respond_all_returns calls ctx hist (w : W) :
  well_formed ctx ->
  Forall (fun c : str * option (gmap str pyval) => well_formed_call c.2) calls ->
  exists texts, (respond_all calls (bot ctx hist) w).1.1 = Ok <$> texts.
Proof.
  intros Hctx Hcalls. revert ctx hist w Hctx.
  induction Hcalls as [|[q d] calls Hd _ IH]; intros ctx hist w Hctx; simpl.
  - by exists [].
  - pose proof (in_force_well_formed_call ctx hist d Hctx Hd) as Hwf.
    destruct (get_response_returns ctx hist q d w Hwf) as (s & now & w' & ->).
    destruct (IH _ (hist ++ [Turn now q s]) w' Hwf) as [texts Htexts].
    destruct (respond_all calls _ w') as [[rs self'] w'']. simpl in *.
    exists (s :: texts). by rewrite Htexts.
Qed.

(** C5: on a fresh chatbot, the log after a series of [get_response] calls
    holds, in call order, the query and the returned text of each call that
    returned.  When every context passed is well-formed, all N calls return
    and the log has exactly N turns, the i-th with the query and the text
    of the i-th call.  Clearing empties the log, and clearing twice is
    clearing once. *)
Theorem history_records_calls calls w :
  let rs := (respond_all calls init w).1.1 in
  let self := (respond_all calls init w).1.2 in
  asked_and_answered <$> get_conversation_history self =
    concat (zip_with logged calls.*1 rs) /\
  (Forall (fun c : str * option (gmap str pyval) => well_formed_call c.2) calls ->
   exists texts,
     rs = Ok <$> texts /\
     length (get_conversation_history self) = length calls /\
     asked_and_answered <$> get_conversation_history self = zip calls.*1 texts) /\
  get_conversation_history (clear_history self) = [] /\
  clear_history (clear_history self) = clear_history self.
Proof.
  intros rs self. unfold get_conversation_history.
  assert (Hlog : asked_and_answered <$> conversation_history self =
                 concat (zip_with logged calls.*1 rs)).
  { subst rs self. by rewrite respond_all_log. }
  split; [done|]. split; [|done].
  intros Hcalls.
  destruct (respond_all_returns calls ∅ [] w) as [texts Htexts]; [done|done|].
  change (rs = Ok <$> texts) in Htexts.
  assert (Hlen : length texts = length calls).
  { rewrite <- (length_fmap Ok texts), <- Htexts. apply respond_all_length. }
  assert (Hzip : asked_and_answered <$> conversation_history self = zip calls.*1 texts)
    by (by rewrite Hlog, Htexts, logged_all_ok).
  exists texts. split; [done|]. split; [|done].
  rewrite <- (length_fmap asked_and_answered), Hzip, length_zip_with, length_fmap. lia.
Qed.

(** ** The context *)

Lemma sampled_topics_typed topic args sig :
  (topic, args, sig) ∈ sampled_topics ->
  (forall self, topic_args self topic = Some args) /\
  (forall w, exists kw w', args w = (Ok kw, w') /\ typed kw sig).
Proof.
  unfold sampled_topics. rewrite !elem_of_cons, elem_of_nil.
  intros [H|[H|[H|[H|[H|[H|[H|[H|[]]]]]]]]]; injection H as -> -> ->;
    (split; [reflexivity|]); intros w.
  - apply maintenance_args_typed.
  - apply energy_args_typed.
  - apply quality_args_typed.
  - apply production_args_typed.
  - apply alert_args_typed.
  - apply anomaly_args_typed.
  - apply summary_args_typed.
  - apply optimize_args_typed.
Qed.

(** Only the OEE branch reads the instance's context. *)
Lemma generate_response_context_free topic ctx hist ctx' hist' (w : W) :
  topic <> u "oee" ->
  _generate_response (bot ctx hist) topic w = _generate_response (bot ctx' hist') topic w.
Proof.
  intros Hne. unfold _generate_response, topic_args.
  destruct (decide (topic = u "oee")); [done|reflexivity].
Qed.

Lemma get_response_oee ctx hist q d (w : W) :
  classify (bot ctx hist) q = Some (u "oee") ->
  (get_response (bot ctx hist) q d w).1.1 =
  (_generate_response (in_force (bot ctx hist) d) (u "oee") w).1.
Proof.
  intros Hc.
  rewrite (get_response_matched _ _ _ _ (u "oee"));
    [|by rewrite classify_in_force|discriminate].
  by rewrite log_turn_result.
Qed.

(** The answer to a query of the OEE topic: the draw [x] and the further
    arguments [rest] come from the world alone; the context in force decides
    between its own [oee] value and [x]. *)
Lemma oee_answer (q : str) (w : W) :
  exists x rest,
    float_le (of_int 78) x /\ float_le x (of_int 92) /\ typed rest oee_rest_sig /\
    forall ctx hist d,
      classify (bot ctx hist) q = Some (u "oee") ->
      let used := context (in_force (bot ctx hist) d) in
      let oee := default (PyFloat x) (used !! u "oee") in
      (get_response (bot ctx hist) q d w).1.1 =
        format response_oee ((u "oee", oee) :: rest) /\
      forall s, format_value oee_spec oee = Ok s ->
        exists r, (get_response (bot ctx hist) q d w).1.1 =
          Ok (u "**Overall Equipment Effectiveness (OEE)** is currently at " ++ s ++ r).
Proof.
  destruct (generate_oee w) as (x & rest & w' & Hlo & Hhi & Hrest & Hgen).
  exists x, rest. repeat (split; [done|]).
  intros ctx hist d Hc used oee.
  rewrite (get_response_oee _ _ _ _ _ Hc), in_force_bot, Hgen. simpl fst.
  assert (Hoee : default (PyFloat x)
    (match d with Some m => if decide (m = ∅) then ctx else m | None => ctx end
       !! u "oee") = oee).
  { subst oee used. by rewrite in_force_bot. }
  rewrite Hoee. split; [done|]. intros s Hs.
  pose proof (format_oee oee rest Hrest) as Hfmt. by rewrite Hs in Hfmt.
Qed.

(** A key of the mapping passed to the call is a key of the context in
    force. *)
Lemma in_force_supplied (self : chatbot) (m : gmap str pyval) (k : str) (v : pyval) :
  m !! k = Some v -> context (in_force self (Some m)) !! k = Some v.
Proof.
  intros Hk. simpl. destruct (decide (m = ∅)) as [->|_]; [|done].
  by rewrite lookup_empty in Hk.
Qed.

(** C2, as the code has it: of all numeric placeholders only [oee] of the
    OEE topic reads the context.  For a query of the OEE topic there are a
    draw [x] from [78, 92] and further arguments, fixed by the world alone,
    such that the answer is the OEE template on the [oee] value of the
    mapping passed to the call when that has the key, on the value of the
    context in force in general, and on [x] when that lacks the key; a value
    that [.1f] prints appears in the answer as printed.  The answer to a
    query of any other topic is the same under every context, its arguments
    drawn from the fixed ranges of its signature. *)
Theorem context_overrides_oee_only (q : str) (w : W) :
  (exists x rest,
     float_le (of_int 78) x /\ float_le x (of_int 92) /\ typed rest oee_rest_sig /\
     forall ctx hist d,
       classify (bot ctx hist) q = Some (u "oee") ->
       let used := context (in_force (bot ctx hist) d) in
       let oee := default (PyFloat x) (used !! u "oee") in
       (forall m v, d = Some m -> m !! u "oee" = Some v -> oee = v) /\
       (used !! u "oee" = None -> oee = PyFloat x) /\
       (get_response (bot ctx hist) q d w).1.1 =
         format response_oee ((u "oee", oee) :: rest) /\
       forall s, format_value oee_spec oee = Ok s ->
         exists r, (get_response (bot ctx hist) q d w).1.1 =
           Ok (u "**Overall Equipment Effectiveness (OEE)** is currently at " ++ s ++ r)) /\
  (forall topic ctx hist d ctx' hist' d',
     topic <> u "oee" ->
     classify (bot ctx hist) q = Some topic ->
     (get_response (bot ctx hist) q d w).1.1 =
     (get_response (bot ctx' hist') q d' w).1.1) /\
  (forall topic args sig,
     (topic, args, sig) ∈ sampled_topics ->
     (forall self, topic_args self topic = Some args) /\
     (forall w, exists kw w', args w = (Ok kw, w') /\ typed kw sig)).
Proof.
  split; [|split].
  - destruct (oee_answer q w) as (x & rest & Hlo & Hhi & Hrest & Hans).
    exists x, rest. repeat (split; [done|]).
    intros ctx hist d Hc used oee.
    split; [|split; [|by apply Hans]].
    + intros m v -> Hv. subst oee used.
      by rewrite (in_force_supplied _ _ _ _ Hv).
    + intros Hnone. subst oee. by rewrite Hnone.
  - intros topic ctx hist d ctx' hist' d' Hne Hc.
    assert (Hc' : classify (bot ctx' hist') q = Some topic)
      by (by rewrite classify_bot, <- (classify_bot ctx hist)).
    assert (Htopic : topic <> []).
    { intros ->. rewrite classify_bot in Hc.
      destruct (first_match_elem _ _ _ Hc) as [info Hin].
      pose proof init_keys_nonempty as Hkeys.
      rewrite Forall_forall in Hkeys. by apply (Hkeys _ Hin). }
    rewrite !(get_response_matched _ _ _ _ topic);
      [|by rewrite classify_in_force|done|by rewrite classify_in_force|done].
    rewrite !log_turn_result, !in_force_bot.
    f_equal. by apply generate_response_context_free.
  - apply sampled_topics_typed.
Qed.

Lemma get_response_context self q d (w : W) :
  context (get_response self q d w).1.2 = context (in_force self d).
Proof.
  rewrite get_response_eq. unfold log_turn.
  by destruct (match classify _ q with Some (c :: t) => _ | _ => _ end) as [[s|e] w'].
Qed.

Lemma without_context_in_force self d :
  without_context d -> in_force self d = self.
Proof. intros [->| ->]; simpl; [done|]. by rewrite decide_True. Qed.

(** Calls without a context leave the stored context as it is. *)
Lemma respond_all_context calls self (w : W) :
  Forall (fun c : str * option (gmap str pyval) => without_context c.2) calls ->
  context (respond_all calls self w).1.2 = context self.
Proof.
  intros Hcalls. revert self w.
  induction Hcalls as [|[q d] calls Hd _ IH]; intros self w; simpl; [done|].
  pose proof (get_response_context self q d w) as Hctx.
  destruct (get_response self q d w) as [[r self'] w']. simpl in Hctx.
  specialize (IH self' w').
  destruct (respond_all calls self' w') as [[rs self''] w'']. simpl in *.
  by rewrite IH, Hctx, without_context_in_force.
Qed.

(** C3, as the code has it: the context is an attribute of the instance.  A
    call without a context, or with an empty one, is the same call as one to
    which the host passes the stored context again.  A call with a context
    that is not empty stores it; no call changes the stored context
    otherwise, so it stays through any series of calls without a context.
    An OEE query on a call without a context is answered with the OEE
    template on the stored [oee] value when the stored context has the key,
    printed by [.1f], and on a draw from [78, 92] when it has not. *)
Theorem context_is_retained self q (w : W) :
  get_response self q None w = get_response self q (Some (context self)) w /\
  get_response self q (Some ∅) w = get_response self q None w /\
  context (get_response self q None w).1.2 = context self /\
  (forall d,
     context (get_response self q (Some d) w).1.2 =
     if decide (d = ∅) then context self else d) /\
  (forall calls (w' : W),
     Forall (fun c : str * option (gmap str pyval) => without_context c.2) calls ->
     context (respond_all calls self w').1.2 = context self) /\
  (exists x rest,
     float_le (of_int 78) x /\ float_le x (of_int 92) /\ typed rest oee_rest_sig /\
     forall ctx hist d,
       without_context d ->
       classify (bot ctx hist) q = Some (u "oee") ->
       (get_response (bot ctx hist) q d w).1.1 =
         format response_oee ((u "oee", default (PyFloat x) (ctx !! u "oee")) :: rest) /\
       (forall v s,
          ctx !! u "oee" = Some v -> format_value oee_spec v = Ok s ->
          exists r, (get_response (bot ctx hist) q d w).1.1 =
            Ok (u "**Overall Equipment Effectiveness (OEE)** is currently at " ++ s ++ r)) /\
       (ctx !! u "oee" = None ->
          exists r, (get_response (bot ctx hist) q d w).1.1 =
            Ok (u "**Overall Equipment Effectiveness (OEE)** is currently at " ++
                format_float false 1 x ++ r))).
Proof.
  split; [|split; [|split; [|split; [|split]]]].
  - rewrite !get_response_eq.
    assert (Hsame : in_force self (Some (context self)) = in_force self None).
    { simpl. destruct (decide _); [done|]. by destruct self. }
    by rewrite Hsame.
  - rewrite !get_response_eq. simpl in_force. by rewrite decide_True.
  - by rewrite get_response_context.
  - intros d. rewrite get_response_context. simpl. by destruct (decide _).
  - intros calls w'. apply respond_all_context.
  - destruct (oee_answer q w) as (x & rest & Hlo & Hhi & Hrest & Hans).
    exists x, rest. repeat (split; [done|]).
    intros ctx hist d Hd Hc. specialize (Hans ctx hist d Hc). cbv zeta in Hans.
    rewrite (without_context_in_force _ d Hd) in Hans.
    change (context (bot ctx hist)) with ctx in Hans.
    destruct Hans as [Hfmt Hprint]. split; [done|]. split.
    + intros v s Hv Hs. apply Hprint. by rewrite Hv.
    + intros Hnone. apply Hprint. by rewrite Hnone.
Qed.

(** C10: an empty mapping passed as context is treated as no context: the
    call is the same call, the stored context stays, and a context stored by
    an earlier call is the one the call works with. *)
Theorem empty_context_is_no_context self q (w : W) :
  get_response self q (Some ∅) w = get_response self q None w /\
  forall q1 d1 (w1 : W),
    d1 <> ∅ ->
    let self1 := (get_response self q1 (Some d1) w1).1.2 in
    context self1 = d1 /\
    context (get_response self1 q (Some ∅) w).1.2 = d1 /\
    get_response self1 q (Some ∅) w = get_response self1 q (Some d1) w.
Proof.
  assert (Hctx : forall self d q w,
    context (get_response self q d w).1.2 = context (in_force self d)).
  { intros self0 d q0 w0. rewrite get_response_eq. unfold log_turn.
    by destruct (match classify _ q0 with Some (c :: t) => _ | _ => _ end) as [[s|e] w']. }
  split.
  - rewrite !get_response_eq. simpl in_force. by rewrite decide_True.
  - intros q1 d1 w1 Hd1 self1.
    assert (H1 : context self1 = d1).
    { subst self1. rewrite Hctx. simpl. by rewrite decide_False. }
    split; [done|]. split.
    + rewrite Hctx. simpl. by rewrite decide_True.
    + rewrite !get_response_eq. simpl in_force.
      rewrite decide_True by done. rewrite decide_False by done.
      rewrite <- H1. by destruct self1.
Qed.

End Responder.

(** * Further properties of the chatbot *)

(** ** Tables with an unnamed entry *)

Lemma match_topics_named items q m :
  truthy m = false ->
  effective (match_topics items q m) = first_match (named_entries items) q.
Proof.
  unfold first_match. revert m.
  induction items as [|[topic info] items IH]; intros m Hm; simpl.
  - unfold effective. by rewrite Hm.
  - rewrite match_keywords_spec.
    destruct (existsb (contains q) (keywords info)) eqn:Hex; simpl.
    + destruct topic as [|c topic]; simpl.
      * by apply IH.
      * unfold topic_matches. simpl. by rewrite Hex.
    + rewrite Hm. destruct topic as [|c topic]; simpl.
      * by apply IH.
      * unfold topic_matches at 1. simpl. rewrite Hex. by apply IH.
Qed.

(** X1: for any table, the two loops of [get_response] and its test of
    [matched_topic] choose the first entry with a non-empty key that has a
    keyword in the query: an entry whose key is the empty string is never
    chosen, whether it matches or not. *)
Theorem unnamed_entry_never_chosen items q :
  effective (match_topics items q None) = first_match (named_entries items) q.
Proof. by apply match_topics_named. Qed.

(** ** Keywords that decide nothing *)

Lemma contains_trans s p r :
  contains s p = true -> contains p r = true -> contains s r = true.
Proof.
  rewrite !contains_spec. intros (a & b & ->) (a' & b' & ->).
  exists (a ++ a'), (b' ++ b). by rewrite <- !app_assoc.
Qed.

(** Every struck keyword of the list contains a keyword that stays. *)
Definition covered (dead kws : list str) : bool :=
  forallb (fun kw =>
             negb (bool_decide (kw ∈ dead)) ||
             existsb (fun kw' => negb (bool_decide (kw' ∈ dead)) && contains kw kw') kws)
          kws.

Lemma existsb_without q dead kws :
  covered dead kws = true ->
  existsb (contains q) (List.filter (fun kw => negb (bool_decide (kw ∈ dead))) kws) =
  existsb (contains q) kws.
Proof.
  intros Hcov. apply eq_true_iff_eq. rewrite !existsb_exists. split.
  - intros (kw & [Hin _]%filter_In & Hq). eauto.
  - intros (kw & Hin & Hq).
    unfold covered in Hcov. rewrite forallb_forall in Hcov.
    specialize (Hcov kw Hin). apply orb_true_iff in Hcov as [Hlive|Hcov].
    + exists kw. split; [|done]. by apply filter_In.
    + apply existsb_exists in Hcov as (kw' & Hin' & [Hlive Hsub]%andb_true_iff).
      exists kw'. split; [by apply filter_In|]. by eapply contains_trans.
Qed.

Lemma first_match_without dead items q :
  Forall (fun item : str * topic_info => covered dead (keywords item.2) = true) items ->
  first_match (without_keywords dead items) q = first_match items q.
Proof.
  unfold first_match. induction 1 as [|[topic info] items Hcov _ IH]; simpl; [done|].
  assert (Hsame :
    topic_matches q
      (topic, TopicInfo (List.filter (fun kw => negb (bool_decide (kw ∈ dead)))
                           (keywords info)) (response info)) =
    topic_matches q (topic, info)).
  { unfold topic_matches. simpl. by apply existsb_without. }
  rewrite Hsame. destruct (topic_matches q (topic, info)); [done|apply IH].
Qed.

(** X2: the keywords [overall equipment effectiveness] and [defects] decide
    nothing: each contains another keyword of its own topic, so the table
    without them classifies every query as the table does. *)
Theorem redundant_keywords q :
  match_topics
    (without_keywords [u "overall equipment effectiveness"; u "defects"]
       init_knowledge_base) q None =
  match_topics init_knowledge_base q None.
Proof.
  rewrite !match_topics_first_match.
  - apply first_match_without. repeat constructor.
  - apply init_keys_nonempty.
  - repeat constructor; discriminate.
Qed.

Section Further.
Context {ops : StrOps} {W : Type} {world : World W}.

(** ** Longer queries *)

Lemma first_match_mono items q q' t :
  (forall kw, contains q kw = true -> contains q' kw = true) ->
  first_match items q = Some t ->
  exists i j t' info info',
    (i <= j)%nat /\ items !! j = Some (t, info) /\ items !! i = Some (t', info') /\
    first_match items q' = Some t'.
Proof.
  intros Hsub. unfold first_match.
  assert (Hm : forall it, topic_matches q it = true -> topic_matches q' it = true).
  { intros it. unfold topic_matches. rewrite !existsb_exists.
    intros (kw & Hin & Hq). eauto. }
  induction items as [|[topic info] items IH]; simpl; [done|].
  destruct (topic_matches q' (topic, info)) eqn:Hq'.
  - intros Hfind. exists 0%nat.
    destruct (topic_matches q (topic, info)) eqn:Hq; simpl in Hfind.
    + injection Hfind as <-. exists 0%nat, topic, info, info. repeat split; done.
    + destruct (IH Hfind) as (i & j & t' & inf & inf' & _ & Hj & _ & _).
      exists (S j), topic, inf, info. repeat split; [lia|done..].
  - destruct (topic_matches q (topic, info)) eqn:Hq.
    + by rewrite (Hm _ Hq) in Hq'.
    + intros Hfind. destruct (IH Hfind) as (i & j & t' & inf & inf' & Hij & Hj & Hi & Hres).
      exists (S i), (S j), t', inf, inf'. repeat split; [lia|done..].
Qed.

(** X3: text added to a query can only move it up the table: when the
    normal form of [q'] contains that of [q] and [q] is classified to the
    topic at position [j], then [q'] is classified to a topic at a position
    [i <= j]; it never falls to the fallback. *)
Theorem longer_query_earlier_topic ctx hist q q' t :
  classify (bot ctx hist) q = Some t ->
  contains (str_strip (str_lower q')) (str_strip (str_lower q)) = true ->
  exists i j t' info info',
    (i <= j)%nat /\
    init_knowledge_base !! j = Some (t, info) /\
    init_knowledge_base !! i = Some (t', info') /\
    classify (bot ctx hist) q' = Some t'.
Proof.
  rewrite !classify_bot. intros Hq Hsub.
  eapply first_match_mono; [|done]. intros kw. by apply contains_trans.
Qed.

(** ** Failure *)

Lemma log_turn_state self q e (w : W) : (log_turn self q (Raise e, w)).1.2 = self.
Proof. done. Qed.

Lemma oee_error_spec v :
  match oee_error v with
  | Some e => format_value oee_spec v = Raise e
  | None => returned (format_value oee_spec v)
  end.
Proof.
  destruct v as [x|z|b|s| |fmt]; simpl; try done.
  - unfold int_to_float. by destruct (binary_normalize _ _ _ _ _).
  - by destruct b.
  - by destruct (fmt oee_spec).
Qed.

(** X4: the converse of the failure analysis.  When the context in force
    holds a value under [oee], a query of the OEE topic raises exactly when
    [.1f] cannot print the value, with the exception of that conversion:
    [ValueError] for a str, [TypeError] for [None], [OverflowError] for an
    int beyond the floats, and for another object what its [__format__]
    raises.  The failing call logs nothing but leaves the context it was
    given assigned, so without a context it changes nothing.  On every
    other value, an object whose [__format__] accepts the spec included,
    the call returns. *)
Theorem unprintable_oee_raises ctx hist q d (w : W) v :
  classify (bot ctx hist) q = Some (u "oee") ->
  context (in_force (bot ctx hist) d) !! u "oee" = Some v ->
  match oee_error v with
  | Some e =>
      (get_response (bot ctx hist) q d w).1.1 = Raise e /\
      (get_response (bot ctx hist) q d w).1.2 = in_force (bot ctx hist) d /\
      (d = None -> (get_response (bot ctx hist) q d w).1.2 = bot ctx hist)
  | None => returned (get_response (bot ctx hist) q d w).1.1
  end.
Proof.
  intros Hc Hv.
  rewrite (get_response_matched _ _ _ _ (u "oee"));
    [|by rewrite classify_in_force|discriminate].
  rewrite in_force_bot in *. simpl in Hv.
  destruct (generate_oee w) as (x & rest & w' & _ & _ & Hrest & ->).
  rewrite Hv. simpl default.
  pose proof (format_oee v rest Hrest) as Hfmt.
  pose proof (oee_error_spec v) as Hspec.
  destruct (oee_error v) as [e|].
  - rewrite Hspec in Hfmt. rewrite Hfmt. repeat split. by intros ->.
  - destruct (format_value oee_spec v) as [s|e]; [|done].
    destruct Hfmt as [r ->]. by rewrite log_turn_result.
Qed.

(** X5: [_generate_response] on a topic that is no key of the table raises
    [KeyError] with that topic, before any random number is drawn. *)
Theorem unknown_topic_raises self topic (w : W) :
  topic ∉ (knowledge_base self).*1 ->
  _generate_response self topic w = (Raise (KeyError topic), w).
Proof.
  intros Hnot. unfold _generate_response, bind, liftr.
  assert (Hitem : kb_item (knowledge_base self) topic = Raise (KeyError topic)).
  { induction (knowledge_base self) as [|[k info] items IH]; simpl; [done|].
    rewrite fmap_cons, not_elem_of_cons in Hnot. destruct Hnot as [Hk Hnot].
    simpl in Hk. rewrite decide_False by done. by apply IH. }
  by rewrite Hitem.
Qed.

(** ** Random numbers *)

Lemma generate_response_world topic ctx hist ctx' hist' (w : W) :
  (_generate_response (bot ctx hist) topic w).2 =
  (_generate_response (bot ctx' hist') topic w).2.
Proof.
  destruct (decide (topic = u "oee")) as [->|Hne].
  - destruct (generate_oee w) as (x & rest & w' & _ & _ & _ & Hgen).
    by rewrite !Hgen.
  - by rewrite (generate_response_context_free topic ctx hist ctx' hist').
Qed.

(** X6: the context never changes what a call draws.  Rendering a topic
    leaves the same world under every context (the draw for the OEE value
    is made even when the context supplies it), and two calls of
    [get_response] for the same query in the same world that both return
    leave the same world. *)
Theorem draws_ignore_context q ctx hist d ctx' hist' d' (w : W) :
  (forall topic,
     (_generate_response (bot ctx hist) topic w).2 =
     (_generate_response (bot ctx' hist') topic w).2) /\
  (returned (get_response (bot ctx hist) q d w).1.1 ->
   returned (get_response (bot ctx' hist') q d' w).1.1 ->
   (get_response (bot ctx hist) q d w).2 = (get_response (bot ctx' hist') q d' w).2).
Proof.
  split; [intros topic; apply generate_response_world|].
  rewrite !get_response_eq, !classify_in_force, !in_force_bot.
  rewrite (classify_bot ctx' hist'), <- (classify_bot ctx hist).
  set (c1 := match d with Some m => if decide (m = ∅) then ctx else m | None => ctx end).
  set (c2 := match d' with Some m => if decide (m = ∅) then ctx' else m | None => ctx' end).
  assert (Hw : forall (r r' : result str * W) self self',
    r.2 = r'.2 -> returned (log_turn self q r).1.1 -> returned (log_turn self' q r').1.1 ->
    (log_turn self q r).2 = (log_turn self' q r').2).
  { intros [[s|e] w1] [[s'|e'] w1'] self self'; simpl; intros ->; done. }
  destruct (classify (bot ctx hist) q) as [[|c t]|]; apply Hw;
    first [apply generate_response_world | reflexivity].
Qed.

(** ** The alert topic *)

Lemma generate_alert ctx hist (w : W) :
  _generate_response (bot ctx hist) (u "alert") w = (Ok alert_text, w).
Proof. vm_compute. reflexivity. Qed.

(** X7: the answer to a query of the alert topic is one fixed text, the
    template with its four alerts and four actions, under every context and
    in every world; the call draws no random number and only reads the
    clock. *)
Theorem alert_is_static ctx hist q d (w : W) :
  classify (bot ctx hist) q = Some (u "alert") ->
  (get_response (bot ctx hist) q d w).1.1 = Ok alert_text /\
  (get_response (bot ctx hist) q d w).2 = (now_hms w).2.
Proof.
  intros Hc.
  rewrite (get_response_matched _ _ _ _ (u "alert"));
    [|by rewrite classify_in_force|discriminate].
  by rewrite in_force_bot, generate_alert.
Qed.

(** ** [update_context] *)

(** X8: storing a context and then asking without one is asking with that
    context, when the context is not empty.  An empty one differs: passed
    to [update_context] it empties the stored context, passed to
    [get_response] it leaves the stored context alone. *)
Theorem update_then_ask self data q (w : W) :
  (data <> ∅ ->
   get_response (update_context self data) q None w = get_response self q (Some data) w) /\
  context (get_response (update_context self ∅) q None w).1.2 = ∅ /\
  context (get_response self q (Some ∅) w).1.2 = context self.
Proof.
  assert (Hctx : forall self d,
    context (get_response self q d w).1.2 = context (in_force self d)).
  { intros self0 d. rewrite get_response_eq. unfold log_turn.
    by destruct (match classify _ q with Some (c :: t) => _ | _ => _ end) as [[s|e] w']. }
  split; [|split].
  - intros Hne. rewrite !get_response_eq. simpl in_force. by rewrite decide_False.
  - by rewrite Hctx.
  - rewrite Hctx. simpl. by rewrite decide_True.
Qed.

(** ** The log *)

(** X13: the log is only written.  Whatever the log holds, a call returns
    the same answer or raises the same exception, leaves the same world and
    the same stored context, and appends the same turn: no answer depends on
    what was asked before, and [clear_history] changes no later answer. *)
Theorem log_is_write_only ctx hist hist' q d (w : W) :
  let r := get_response (bot ctx hist) q d w in
  let r' := get_response (bot ctx hist') q d w in
  r.1.1 = r'.1.1 /\ r.2 = r'.2 /\ context r.1.2 = context r'.1.2 /\
  exists new,
    conversation_history r.1.2 = hist ++ new /\
    conversation_history r'.1.2 = hist' ++ new.
Proof.
  intros r r'. subst r r'. rewrite !get_response_eq, !classify_in_force, !in_force_bot.
  rewrite (classify_bot ctx hist'), <- (classify_bot ctx hist).
  set (c := match d with Some m => if decide (m = ∅) then ctx else m | None => ctx end).
  assert (Hlog : forall (x : result str * W),
    (log_turn (bot c hist) q x).1.1 = (log_turn (bot c hist') q x).1.1 /\
    (log_turn (bot c hist) q x).2 = (log_turn (bot c hist') q x).2 /\
    context (log_turn (bot c hist) q x).1.2 = context (log_turn (bot c hist') q x).1.2 /\
    exists new,
      conversation_history (log_turn (bot c hist) q x).1.2 = hist ++ new /\
      conversation_history (log_turn (bot c hist') q x).1.2 = hist' ++ new).
  { intros [[s|e] w1]; simpl; repeat (split; [done|]).
    - eexists. split; reflexivity.
    - exists []. by rewrite !app_nil_r. }
  destruct (classify (bot ctx hist) q) as [[|a t]|]; apply Hlog.
Qed.

End Further.

(** * Properties of the host *)

Section HostProperties.
Context {ops : StrOps} {W : Type} {world : World W}.

Lemma transcript_snoc hist t :
  transcript (hist ++ [t]) =
  transcript hist ++ [Message (u "user") (user t); Message (u "assistant") (assistant t)].
Proof. unfold transcript. by rewrite flat_map_app. Qed.

Lemma ask_in_step prompt data s (w : W) :
  well_formed data -> in_step s -> in_step (ask prompt data s w).1.2.
Proof.
  intros Hdata (ctx & hist & Hbot & Hctx & Hmsgs). unfold ask. rewrite Hbot.
  destruct (get_response_returns ctx hist prompt (Some data) w
              (in_force_well_formed ctx hist data Hctx Hdata)) as (r & now & w' & ->).
  simpl. eexists _, _. split; [done|]. split.
  - by apply in_force_well_formed.
  - by rewrite Hmsgs, transcript_snoc, <- app_assoc.
Qed.

Lemma handle_in_step e data s (w : W) :
  well_formed data -> in_step s -> in_step (handle e data s w).1.
Proof.
  intros Hdata Hs. destruct e as [i|user_input|]; simpl.
  - unfold press_quick. destruct (quick_prompts !! i) as [[label prompt]|]; [|done].
    pose proof (ask_in_step prompt data s w Hdata Hs) as Hask.
    by destruct (ask prompt data s w) as [[r s'] w'].
  - unfold press_send. destruct (str_strip user_input); [done|].
    pose proof (ask_in_step user_input data s w Hdata Hs) as Hask.
    destruct (ask user_input data s w) as [[[r|e] s'] w']; simpl in *; [|done].
    destruct Hask as (ctx & hist & ? & ? & ?). by exists ctx, hist.
  - destruct Hs as (ctx & hist & Hbot & Hctx & _).
    exists ctx, []. simpl. by rewrite Hbot.
Qed.

Lemma play_in_step events s (w : W) :
  Forall (fun ev : event * gmap str pyval => well_formed ev.2) events ->
  in_step s -> in_step (play events s w).1.
Proof.
  intros Hev. revert s w.
  induction Hev as [|[e data] events Hdata _ IH]; intros s w Hs; simpl; [done|].
  pose proof (handle_in_step e data s w Hdata Hs) as Hstep.
  destruct (handle e data s w) as [s' w']. by apply IH.
Qed.

Lemma new_session_in_step : in_step new_session.
Proof. exists ∅, []. repeat split. Qed.

(** X9: through any series of button presses on a new session, each with
    data whose [oee] value is a number, the message list of the host stays
    the transcript of the chatbot's log: a user's message and an assistant's
    message for every turn, in order, and nothing else.  In any session a
    Send of a blank input changes nothing, and Clear Chat empties the
    message list and the log and leaves the stored context and the world
    alone. *)
Theorem messages_follow_log events (w : W) :
  (Forall (fun ev : event * gmap str pyval => well_formed ev.2) events ->
   let s := (play events new_session w).1 in
   chat_messages s = transcript (conversation_history (session_chatbot s))) /\
  (forall s data user_input (w' : W),
     str_strip user_input = [] ->
     handle (PressSend user_input) data s w' = (s, w')) /\
  (forall s data (w' : W),
     let s' := (handle PressClear data s w').1 in
     chat_messages s' = [] /\
     conversation_history (session_chatbot s') = [] /\
     context (session_chatbot s') = context (session_chatbot s) /\
     (handle PressClear data s w').2 = w').
Proof.
  split; [|split].
  - intros Hev s.
    destruct (play_in_step events new_session w Hev new_session_in_step)
      as (ctx & hist & Hbot & _ & Hmsgs).
    subst s. by rewrite Hmsgs, Hbot.
  - intros s data user_input w' Hblank. simpl. unfold press_send. by rewrite Hblank.
  - intros s data w'. by repeat split.
Qed.

Lemma response_numbers_transcript k hist :
  response_numbers_from (2 * k) (transcript hist) = seq (S k) (length hist).
Proof.
  revert k. induction hist as [|t hist IH]; intros k; [done|].
  change (transcript (t :: hist)) with
    (Message (u "user") (user t) :: Message (u "assistant") (assistant t) :: transcript hist).
  cbn [response_numbers_from role length seq].
  rewrite decide_False by discriminate. rewrite decide_True by done.
  replace (S (S (2 * k))) with (2 * S k)%nat by lia. rewrite IH.
  replace (S (2 * k)) with (1 + k * 2)%nat by lia.
  rewrite Nat.div_add by lia. simpl. by rewrite Nat.add_1_r.
Qed.

(** X10: under the same condition the response expanders are numbered 1, 2,
    ..., one for every turn of the log: the title computed from the index of
    a message in the list is the number of its turn. *)
Theorem responses_numbered_in_order events (w : W) :
  Forall (fun ev : event * gmap str pyval => well_formed ev.2) events ->
  let s := (play events new_session w).1 in
  response_numbers (chat_messages s) =
  seq 1 (length (conversation_history (session_chatbot s))).
Proof.
  intros Hev s.
  destruct (play_in_step events new_session w Hev new_session_in_step)
    as (ctx & hist & Hbot & _ & Hmsgs).
  subst s. rewrite Hmsgs, Hbot. apply (response_numbers_transcript 0).
Qed.

End HostProperties.

(** * The model on the concrete runtime *)

#[export] Existing Instance ascii_ops.

Lemma no_keyword_spec q :
  no_keyword q = true ->
  forall topic info kw,
    (topic, info) ∈ init_knowledge_base -> kw ∈ keywords info ->
    contains q kw = false.
Proof.
  unfold no_keyword. rewrite forallb_forall.
  intros Hall topic info kw Hin%list_elem_of_In Hkw%list_elem_of_In.
  specialize (Hall _ Hin). simpl in Hall. rewrite forallb_forall in Hall.
  by apply negb_true_iff, Hall.
Qed.

(** A query with keywords of two topics goes to the one declared first,
    in whichever order the keywords come. *)
Example quality_before_alert :
  classify (ops := ascii_ops) init (u "Any ALERT about quality?") = Some (u "quality") /\
  classify (ops := ascii_ops) init (u "quality alert") = Some (u "quality").
Proof. split; vm_compute; reflexivity. Qed.

(** A question about the OEE, in capitals and with blanks around it. *)
Lemma oee_query_classified_witness :
  classify (ops := ascii_ops) (bot ∅ []) (u "  What is the OEE? ") = Some (u "oee").
Proof.
  apply (oee_query_classified (ops := ascii_ops)). vm_compute. reflexivity.
Defined.

(** Two sessions with different pasts classify two spellings of the same
    normal form alike. *)
Lemma classification_deterministic_witness :
  classify (ops := ascii_ops)
    (run [GetResponse (u "help") None; ClearHistory] init demo_tape).1 (u "  OEE ") =
  classify (ops := ascii_ops)
    (run [UpdateContext {[u "oee" := PyFloat f99_9]}] init demo_tape).1 (u "oee").
Proof.
  apply (classification_deterministic (ops := ascii_ops)). vm_compute. reflexivity.
Defined.

(** The help text, under a context whose [oee] could not even be printed. *)
Lemma help_is_static_witness :
  (get_response (ops := ascii_ops) (bot {[u "oee" := PyStr (u "high")]} [])
     (u "How to read this?") None demo_tape).1.1 = Ok response_help.
Proof.
  apply (help_is_static (ops := ascii_ops)). vm_compute. reflexivity.
Defined.

(** A query about nothing the table knows. *)
Lemma fallback_coverage_witness :
  exists t,
    init_default_responses !! (randbelow 3 demo_tape).1 = Some t /\
    (get_response (ops := ascii_ops) (bot ∅ []) (u "banana sandwich") None demo_tape).1.1 =
      Ok (substitute (u "{query}") (take 50 (u "banana sandwich")) t).
Proof.
  apply (fallback_coverage (ops := ascii_ops)).
  apply no_keyword_spec. vm_compute. reflexivity.
Defined.

(** The fallback drawn for this world is the second of the pool, with the
    query in its quotes. *)
Example fallback_banana :
  the_answer (get_response (ops := ascii_ops) init (u "banana sandwich") None demo_tape) =
  u "I'm not sure about 'banana sandwich'. You can ask me about equipment status, energy consumption, quality metrics, or production data.".
Proof. vm_compute. reflexivity. Qed.

(** Three calls, three turns, in call order. *)
Example history_of_three :
  let calls := [(u "help", None); (u "banana", None); (u "any alarm?", None)] in
  let self := (respond_all (ops := ascii_ops) calls init demo_tape).1.2 in
  user <$> get_conversation_history self = [u "help"; u "banana"; u "any alarm?"] /\
  get_conversation_history (clear_history self) = [].
Proof. split; vm_compute; reflexivity. Qed.

(** Three calls with well-formed contexts: three answers, three turns, each
    with the query and the answer of its call. *)
Lemma history_records_calls_witness :
  exists texts,
    (respond_all (ops := ascii_ops) demo_calls init demo_tape).1.1 = Ok <$> texts /\
    length (get_conversation_history
              (respond_all (ops := ascii_ops) demo_calls init demo_tape).1.2) =
      length demo_calls /\
    asked_and_answered <$>
      get_conversation_history
        (respond_all (ops := ascii_ops) demo_calls init demo_tape).1.2 =
      zip demo_calls.*1 texts.
Proof.
  apply (proj1 (proj2 (history_records_calls (ops := ascii_ops) demo_calls demo_tape))).
  repeat constructor.
Defined.

(** The OEE query with the data of a script run returns. *)
Lemma render_total_witness :
  returned (get_response (ops := ascii_ops) (bot ∅ []) (u "what is the oee")
              (Some demo_data) demo_tape).1.1.
Proof.
  apply (proj2 (proj2 (proj2 (render_total (ops := ascii_ops) ∅ [])))).
  vm_compute. exact I.
Defined.

(** The placeholders of the OEE template, as [str.format] finds them. *)
Example placeholders_oee :
  placeholders response_oee =
  [u "oee"; u "availability"; u "performance"; u "quality"; u "recommendation"].
Proof. vm_compute. reflexivity. Qed.

(** A call that raises leaves no turn: the string under [oee] cannot be
    printed by [.1f]. *)
Example raising_call_not_logged :
  let r := get_response (ops := ascii_ops) init (u "oee")
             (Some {[u "oee" := PyStr (u "high")]}) demo_tape in
  r.1.1 = Raise ValueError /\ conversation_history r.1.2 = [] /\
  context r.1.2 = {[u "oee" := PyStr (u "high")]}.
Proof. repeat split; vm_compute; reflexivity. Qed.

(** The largest int that [float] converts, and the first it refuses. *)
Example int_to_float_threshold :
  returned (int_to_float (2 ^ 1024 - 2 ^ 970 - 1)) /\
  int_to_float (2 ^ 1024 - 2 ^ 970) = Raise OverflowError.
Proof. split; vm_compute; done. Qed.

(** [respond("what is the oee", {"oee": 99.9})] prints 99.9 in every world,
    whatever was stored or logged before. *)
Lemma oee_from_context {W} {world : World W} ctx hist (w : W) :
  exists r,
    (get_response (ops := ascii_ops) (bot ctx hist) (u "what is the oee")
       (Some {[u "oee" := PyFloat f99_9]}) w).1.1 =
    Ok (u "**Overall Equipment Effectiveness (OEE)** is currently at " ++ u "99.9" ++ r).
Proof.
  destruct (oee_answer (ops := ascii_ops) (u "what is the oee") w)
    as (x & rest & _ & _ & _ & Hans).
  destruct (Hans ctx hist (Some {[u "oee" := PyFloat f99_9]})) as [_ Hs];
    [by vm_compute|].
  apply Hs.
  rewrite (in_force_supplied _ _ (u "oee") (PyFloat f99_9)) by apply lookup_singleton_eq.
  vm_compute. reflexivity.
Qed.

(** C2 fails as stated: the host's context holds [defect_rate], the quality
    template has the placeholder [defect_rate], and the answer prints the
    value drawn from [0.5, 1.5] (0.75 in this world), not the context's
    1.25. *)
Lemma defect_rate_ignores_context :
  let ctx := {[u "defect_rate" := PyFloat (dyadic 5 (-2))]} in
  let answer := the_answer (get_response (ops := ascii_ops) init
                  (u "what is the defect rate") (Some ctx) quality_tape) in
  contains answer (u "**Defect Rate:** 0.75%") = true /\
  contains answer (u "1.25") = false.
Proof. split; vm_compute; reflexivity. Qed.

(** C3 fails as stated: two sessions that differ only in the context of an
    earlier call reach the same world, and the call without a context then
    answers with the OEE value of that earlier context. *)
Lemma earlier_context_is_used :
  let first d := get_response (ops := ascii_ops) init (u "oee") (Some d) demo_tape in
  let a := first {[u "oee" := PyFloat f99_9]} in
  let b := first {[u "oee" := PyFloat f11_1]} in
  a.2 = b.2 /\
  contains (the_answer (get_response (ops := ascii_ops) a.1.2 (u "oee") None a.2))
    (u "is currently at 99.9%.") = true /\
  contains (the_answer (get_response (ops := ascii_ops) b.1.2 (u "oee") None b.2))
    (u "is currently at 11.1%.") = true.
Proof. repeat split; vm_compute; reflexivity. Qed.

(** * The further properties on the concrete runtime *)

(** An unnamed entry that matches is passed over: a later entry takes the
    query, or none does. *)
Example unnamed_entry_passed_over :
  effective (match_topics unnamed_table (u "oee and energy") None) = Some (u "energy") /\
  effective (match_topics unnamed_table (u "oee") None) = None.
Proof. split; vm_compute; reflexivity. Qed.

(** [rate] alone is a production query; with [defect] before it the query
    moves up to the quality topic. *)
Lemma longer_query_earlier_topic_witness :
  exists i j t' info info',
    (i <= j)%nat /\
    init_knowledge_base !! j = Some (u "production", info) /\
    init_knowledge_base !! i = Some (t', info') /\
    classify (ops := ascii_ops) (bot ∅ []) (u "What is the defect rate?") = Some t'.
Proof.
  apply (longer_query_earlier_topic (ops := ascii_ops) ∅ [] (u "rate")
           (u "What is the defect rate?") (u "production")).
  - vm_compute. reflexivity.
  - vm_compute. reflexivity.
Defined.

(** A string stored under [oee]: the OEE query without a context raises
    [ValueError] and leaves the chatbot as it was. *)
Lemma unprintable_oee_raises_witness :
  (get_response (ops := ascii_ops) (bot {[u "oee" := PyStr (u "high")]} [])
     (u "oee") None demo_tape).1.1 = Raise ValueError /\
  (get_response (ops := ascii_ops) (bot {[u "oee" := PyStr (u "high")]} [])
     (u "oee") None demo_tape).1.2 =
    in_force (bot {[u "oee" := PyStr (u "high")]} []) None /\
  (@None (gmap str pyval) = None ->
   (get_response (ops := ascii_ops) (bot {[u "oee" := PyStr (u "high")]} [])
      (u "oee") None demo_tape).1.2 = bot {[u "oee" := PyStr (u "high")]} []).
Proof.
  apply (unprintable_oee_raises (ops := ascii_ops) {[u "oee" := PyStr (u "high")]} []
           (u "oee") None demo_tape (PyStr (u "high"))).
  - vm_compute. reflexivity.
  - vm_compute. reflexivity.
Defined.

(** An object whose [__format__] accepts [.1f], as a [Decimal] does, is
    printed: the call returns, with what the object printed in the answer. *)
Example printable_object_is_printed :
  let decimal_85_55 := PyObject (fun _ => Ok (u "85.6")) in
  exists r,
    (get_response (ops := ascii_ops) (bot {[u "oee" := decimal_85_55]} [])
       (u "oee") None demo_tape).1.1 =
    Ok (u "**Overall Equipment Effectiveness (OEE)** is currently at 85.6" ++ r).
Proof. eexists. vm_compute. reflexivity. Qed.

(** No topic is called [weather]. *)
Lemma unknown_topic_raises_witness :
  _generate_response init (u "weather") demo_tape =
  (Raise (KeyError (u "weather")), demo_tape).
Proof.
  apply (unknown_topic_raises init (u "weather") demo_tape).
  apply (bool_decide_eq_true_1 (u "weather" ∉ (knowledge_base init).*1)).
  vm_compute. reflexivity.
Defined.

(** An alert query, answered with the fixed text. *)
Lemma alert_is_static_witness :
  (get_response (ops := ascii_ops) (bot demo_data []) (u "Any alarm?") None demo_tape).1.1 =
    Ok alert_text /\
  (get_response (ops := ascii_ops) (bot demo_data []) (u "Any alarm?") None demo_tape).2 =
    (now_hms demo_tape).2.
Proof.
  apply (alert_is_static (ops := ascii_ops)). vm_compute. reflexivity.
Defined.

(** The OEE query with and without the demo data: both calls return, and
    both leave the world that has lost the same three draws. *)
Lemma draws_ignore_context_witness :
  (get_response (ops := ascii_ops) (bot demo_data []) (u "oee") None demo_tape).2 =
  (get_response (ops := ascii_ops) (bot ∅ []) (u "oee") None demo_tape).2.
Proof.
  apply (draws_ignore_context (ops := ascii_ops) (u "oee") demo_data [] None ∅ [] None
           demo_tape).
  - vm_compute. exact I.
  - vm_compute. exact I.
Defined.

(** The demo data stored first, or passed with the question. *)
Lemma update_then_ask_witness :
  get_response (ops := ascii_ops) (update_context init demo_data) (u "oee") None demo_tape =
  get_response (ops := ascii_ops) init (u "oee") (Some demo_data) demo_tape.
Proof.
  apply (update_then_ask (ops := ascii_ops) init demo_data (u "oee") demo_tape).
  intros Hempty. apply (f_equal (fun m : gmap str pyval => m !! u "oee")) in Hempty.
  vm_compute in Hempty. discriminate.
Defined.

Lemma demo_events_well_formed :
  Forall (fun ev : event * gmap str pyval => well_formed ev.2) demo_events.
Proof. repeat constructor. Qed.

(** The demo series of presses keeps the message list in step with the
    log. *)
Lemma messages_follow_log_witness :
  chat_messages (play (ops := ascii_ops) demo_events new_session demo_tape).1 =
  transcript (conversation_history
                (session_chatbot (play (ops := ascii_ops) demo_events new_session demo_tape).1)).
Proof.
  apply (proj1 (messages_follow_log (ops := ascii_ops) demo_events demo_tape)).
  repeat constructor.
Defined.

Lemma responses_numbered_in_order_witness :
  response_numbers
    (chat_messages (play (ops := ascii_ops) demo_events new_session demo_tape).1) =
  seq 1 (length (conversation_history
                   (session_chatbot (play (ops := ascii_ops) demo_events new_session demo_tape).1))).
Proof.
  apply (responses_numbered_in_order (ops := ascii_ops) demo_events demo_tape).
  repeat constructor.
Defined.

(** After the demo series: the two turns since the clearing, four messages,
    and the key counter moved by two sends and the clearing. *)
Example demo_session :
  let s := (play (ops := ascii_ops) demo_events new_session demo_tape).1 in
  role <$> chat_messages s = [u "user"; u "assistant"; u "user"; u "assistant"] /\
  user <$> conversation_history (session_chatbot s) =
    [u "What's the current quality status?"; u "banana sandwich"] /\
  response_numbers (chat_messages s) = [1; 2]%nat /\
  chat_input_key s = 3%Z.
Proof. repeat split; vm_compute; reflexivity. Qed.

(** A send that raises leaves the user's message without an answer, and the
    next answer is then titled with the wrong number. *)
Example failed_send_breaks_numbering :
  let bad := {[u "oee" := PyStr (u "high")]} in
  let s := (play (ops := ascii_ops)
              [(PressSend (u "oee"), bad); (PressSend (u "help"), bad)]
              new_session demo_tape).1 in
  role <$> chat_messages s = [u "user"; u "user"; u "assistant"] /\
  response_numbers (chat_messages s) = [2]%nat /\
  length (conversation_history (session_chatbot s)) = 1%nat.
Proof. repeat split; vm_compute; reflexivity. Qed.

(** X11: of the thirteen sample questions that the help text quotes, twelve
    are answered by a topic and one, [Which machines need attention?], is
    not: it has no keyword of the table and gets the fallback. *)
Theorem help_sample_questions :
  (fun q => classify (ops := ascii_ops) init q) <$> quoted response_help =
  [Some (u "oee"); Some (u "energy"); Some (u "production"); Some (u "quality");
   Some (u "maintenance"); None; Some (u "maintenance");
   Some (u "alert"); Some (u "anomaly"); Some (u "alert");
   Some (u "optimize"); Some (u "optimize"); Some (u "summary")] /\
  quoted response_help !! 5%nat = Some (u "Which machines need attention?").
Proof. split; vm_compute; reflexivity. Qed.

(** X12: each quick action button of the chat tab asks a question of the
    topic on its label. *)
Theorem quick_actions_reach_their_topics :
  (fun p : str * str => classify (ops := ascii_ops) init p.2) <$> quick_prompts =
  [Some (u "summary"); Some (u "maintenance"); Some (u "energy");
   Some (u "quality"); Some (u "optimize")].
Proof. vm_compute. reflexivity. Qed.
